(** * openprocurement.auctions.dgf: the auction model and its next_check

    A shallow embedding of [openprocurement/auctions/dgf/models.py]:
    the [Document] validators, the [Auction] defaults, the serialized
    [tenderPeriod] and the deadline computation [next_check], followed by
    the properties the specification states about them.

    Python values are modelled as follows.
    - An aware [datetime] is an instant (microseconds since the epoch, UTC)
      together with the UTC offset (whole minutes) of the zone it is
      expressed in.  Comparison ([<], [min], [max]) looks at the instant
      only, [astimezone] keeps the instant and replaces the offset,
      [isoformat] prints the local civil time followed by the offset.
      Dates are taken inside the range of [datetime]: an [astimezone] that
      leaves it, which raises [OverflowError], is not modelled.
    - A [timedelta] is a number of microseconds.
    - A schematics field without a value is [None]; dereferencing [None]
      raises [AttributeError], which the embedding keeps as a result.
    - [TZ], [calc_auction_end_time], [calculate_business_date],
      [COMPLAINT_STAND_STILL_TIME] and [block_complaint_status] are
      imported by the module from other packages; they are the fields of
      the class [Imports], over which everything about the auction is
      stated. *)

From Stdlib Require Import ZArith List String Ascii Bool Lia.
Import ListNotations.
Open Scope string_scope.
Open Scope Z_scope.

(** ** Exceptions and results *)

Inductive exn : Type :=
| AttributeError
| TypeError
| ValidationError (messages : list string).

Inductive result (A : Type) : Type :=
| Ok (a : A)
| Raise (e : exn).
Arguments Ok {A} a.
Arguments Raise {A} e.

Definition bind {A B : Type} (r : result A) (k : A -> result B) : result B :=
  match r with
  | Ok a => k a
  | Raise e => Raise e
  end.

Notation "x <- r ;; k" := (bind r (fun x => k))
  (at level 61, r at next level, right associativity).

(** ** datetime *)

Record datetime : Type := mkdatetime {
  utc : Z;        (* microseconds since 1970-01-01T00:00:00 UTC *)
  utcoffset : Z   (* offset of the zone, in minutes *)
}.

Definition timedelta : Type := Z.

Definition days (n : Z) : timedelta := n * 86400000000.

(** [d + delta]: the zone of [d] is kept. *)
Definition dt_add (d : datetime) (delta : timedelta) : datetime :=
  mkdatetime (utc d + delta) (utcoffset d).

(** [a < b] on aware datetimes. *)
Definition dt_ltb (a b : datetime) : bool := utc a <? utc b.

(** A time zone gives the offset in force at an instant. *)
Definition tzinfo : Type := Z -> Z.

Definition astimezone (tz : tzinfo) (d : datetime) : datetime :=
  mkdatetime (utc d) (tz (utc d)).

(** [min(xs)] and [max(xs)] on a non-empty list: the first of the smallest
    (largest) elements, as the built-ins return it. *)
Definition min_from (x : datetime) (xs : list datetime) : datetime :=
  fold_left (fun m y => if dt_ltb y m then y else m) xs x.

Definition max_from (x : datetime) (xs : list datetime) : datetime :=
  fold_left (fun m y => if dt_ltb m y then y else m) xs x.

(** *** isoformat *)

Definition digit (n : Z) : ascii := ascii_of_nat (48 + Z.to_nat n).

Fixpoint pad (w : nat) (n : Z) : string :=
  match w with
  | O => ""
  | S w' => pad w' (n / 10) ++ String (digit (n mod 10)) ""
  end.

(** Civil date (year, month, day) of a day count since 1970-01-01. *)
Definition civil_from_days (z0 : Z) : Z * Z * Z :=
  let z := z0 + 719468 in
  let era := z / 146097 in
  let doe := z - era * 146097 in
  let yoe := (doe - doe / 1460 + doe / 36524 - doe / 146096) / 365 in
  let y := yoe + era * 400 in
  let doy := doe - (365 * yoe + yoe / 4 - yoe / 100) in
  let mp := (5 * doy + 2) / 153 in
  let d := doy - (153 * mp + 2) / 5 + 1 in
  let m := if mp <? 10 then mp + 3 else mp - 9 in
  (if m <=? 2 then y + 1 else y, m, d).

Definition isoformat (d : datetime) : string :=
  let local := utc d + utcoffset d * 60000000 in
  let day := local / 86400000000 in
  let rest := local mod 86400000000 in
  let '(y, m, dd) := civil_from_days day in
  let us := rest mod 1000000 in
  let off := Z.abs (utcoffset d) in
  pad 4 y ++ "-" ++ pad 2 m ++ "-" ++ pad 2 dd ++ "T"
  ++ pad 2 (rest / 3600000000) ++ ":"
  ++ pad 2 ((rest / 60000000) mod 60) ++ ":"
  ++ pad 2 ((rest / 1000000) mod 60)
  ++ (if us =? 0 then "" else "." ++ pad 6 us)
  ++ (if utcoffset d <? 0 then "-" else "+")
  ++ pad 2 (off / 60) ++ ":" ++ pad 2 (off mod 60).

(** ** The models *)

Module Period.
Record t : Type := mk {
  startDate : option datetime;
  endDate : option datetime
}.
End Period.

Module Complaint.
Record t : Type := mk {
  status : string;
  dateSubmitted : option datetime;
  dateAnswered : option datetime;
  relatedLot : option string
}.
End Complaint.

Module Award.
Record t : Type := mk {
  lotID : option string;
  status : string;
  complaintPeriod : option Period.t;
  complaints : list Complaint.t
}.
End Award.

Module Lot.
Record t : Type := mk {
  id : string;
  status : string;
  auctionPeriod : option Period.t;
  numberOfBids : Z
}.
End Lot.

Module Auction.
Record t : Type := mk {
  awards : list Award.t;
  complaints : list Complaint.t;
  enquiryPeriod : option Period.t;
  tenderPeriod : option Period.t;
  auctionPeriod : option Period.t;
  procurementMethodType : string;
  status : string;
  lots : list Lot.t;
  numberOfBids : Z
}.

(** The values [status] may take. *)
Definition status_choices : list string :=
  ["draft"; "active.tendering"; "active.auction"; "active.qualification";
   "active.awarded"; "complete"; "cancelled"; "unsuccessful"].

(** The declared defaults: [default=list()] for the lists,
    ["dgfOtherAssets"] and ["active.tendering"] for the two strings. *)
Definition default_procurementMethodType : string := "dgfOtherAssets".
Definition default_status : string := "active.tendering".

Definition or_default {A : Type} (given : option A) (default : A) : A :=
  match given with
  | Some v => v
  | None => default
  end.

(** [Auction(data)]: a field missing from [data] takes its default. *)
Definition new (awards_ : option (list Award.t))
               (complaints_ : option (list Complaint.t))
               (enquiryPeriod_ tenderPeriod_ auctionPeriod_ : option Period.t)
               (procurementMethodType_ status_ : option string)
               (lots_ : option (list Lot.t))
               (numberOfBids_ : Z) : t :=
  mk (or_default awards_ [])
     (or_default complaints_ [])
     enquiryPeriod_ tenderPeriod_ auctionPeriod_
     (or_default procurementMethodType_ default_procurementMethodType)
     (or_default status_ default_status)
     (or_default lots_ [])
     numberOfBids_.
End Auction.

(** Truth value of an optional field: [None] is false. *)
Definition is_set {A : Type} (o : option A) : bool :=
  match o with
  | Some _ => true
  | None => false
  end.

(** [x in xs] on strings. *)
Definition str_in (x : string) (xs : list string) : bool :=
  existsb (String.eqb x) xs.

(** [a == b] where [a] may be [None] and [b] is a string. *)
Definition opt_str_eqb (a : option string) (b : string) : bool :=
  match a with
  | Some s => String.eqb s b
  | None => false
  end.

Definition is_empty {A : Type} (xs : list A) : bool :=
  match xs with
  | [] => true
  | _ :: _ => false
  end.

(** [xs[-1]] of a non-empty list, [None] if there is none. *)
Definition last_opt {A : Type} (xs : list A) : option A :=
  match xs with
  | [] => None
  | x :: rest => Some (last rest x)
  end.

(** ** Document *)

Module Document.
Record t : Type := mk {
  documentType : option string;
  format : option string;
  hash : option string;
  url : option string
}.

Definition documentType_choices : list string :=
  ["auctionNotice"; "awardNotice"; "contractNotice";
   "notice"; "biddingDocuments"; "technicalSpecifications";
   "evaluationCriteria"; "clarifications"; "shortlistedFirms";
   "riskProvisions"; "billOfQuantity"; "bidders"; "conflictOfInterest";
   "debarments"; "evaluationReports"; "winningBid"; "complaints";
   "contractSigned"; "contractArrangements"; "contractSchedule";
   "contractAnnexe"; "contractGuarantees"; "subContract";
   "eligibilityCriteria"; "contractProforma"; "commercialProposal";
   "qualificationDocuments"; "eligibilityDocuments"; "tenderNotice";
   "illustration"; "financialLicense"; "virtualDataRoom"].

(** [\w]: a letter, a digit or the underscore. *)
Definition word_char (c : ascii) : bool :=
  let n := nat_of_ascii c in
  ((48 <=? n) && (n <=? 57) || (65 <=? n) && (n <=? 90)
   || (97 <=? n) && (n <=? 122) || (n =? 95))%nat.

(** [[-\w]] and [[-\.\w\+]]. *)
Definition head_char (c : ascii) : bool :=
  Ascii.eqb c "-" || word_char c.
Definition tail_char (c : ascii) : bool :=
  Ascii.eqb c "-" || Ascii.eqb c "." || word_char c || Ascii.eqb c "+".

(** What is left of [s] after its longest prefix of characters in [p]. *)
Fixpoint skip (p : ascii -> bool) (s : string) : string :=
  match s with
  | String c rest => if p c then skip p rest else s
  | EmptyString => s
  end.

(** [$]: the end of the string, or a last newline before it. *)
Definition at_end (s : string) : bool :=
  match s with
  | EmptyString => true
  | String c EmptyString => Ascii.eqb c (ascii_of_nat 10)
  | _ => false
  end.

(** [re.match('^[-\w]+/[-\.\w\+]+$', s)]: neither class holds the slash or
    the newline, so each run is the longest one. *)
Definition format_regex (s : string) : bool :=
  match s with
  | String c rest =>
      head_char c &&
      match skip head_char rest with
      | String slash (String c2 rest2) =>
          Ascii.eqb slash "/" && tail_char c2 && at_end (skip tail_char rest2)
      | _ => false
      end
  | EmptyString => false
  end.

(** Truth value of a string field: [None] and the empty string are false. *)
Definition truthy (o : option string) : bool :=
  match o with
  | Some s => negb (String.eqb s "")
  | None => false
  end.

Definition is_virtualDataRoom (d : t) : bool :=
  opt_str_eqb (documentType d) "virtualDataRoom".

Section Validators.
(** [URLType().validate(url)] of schematics on a string: [true] when it
    returns, [false] when it raises its [ValidationError]. *)
Variable URLType_validate : string -> bool.

Definition validate_hash (data : t) (hash_ : option string) : result unit :=
  if is_virtualDataRoom data && truthy hash_
  then Raise (ValidationError ["This field is not required."])
  else Ok tt.

Definition validate_format (data : t) (format_ : option string) : result unit :=
  if negb (is_virtualDataRoom data) && negb (truthy format_)
  then Raise (ValidationError ["This field is required."])
  else if is_virtualDataRoom data && truthy format_
  then Raise (ValidationError ["This field is not required."])
  else Ok tt.

(** Without a url the regular expression of [URLType] is matched against
    [None], which raises [TypeError]. *)
Definition validate_url (data : t) (url_ : option string) : result unit :=
  if is_virtualDataRoom data
  then match url_ with
       | Some u => if URLType_validate u then Ok tt
                   else Raise (ValidationError ["Not a well formed URL."])
       | None => Raise TypeError
       end
  else Ok tt.

(** The declarations of the two fields: a value that is present has to
    match the regular expression, resp. be one of the choices.  The
    messages are those of schematics, the one of the choices without the
    list it prints. *)
Definition field_format (format_ : option string) : result unit :=
  match format_ with
  | Some s => if format_regex s then Ok tt
              else Raise (ValidationError ["String value did not match validation regex."])
  | None => Ok tt
  end.

Definition field_documentType (documentType_ : option string) : result unit :=
  match documentType_ with
  | Some s => if str_in s documentType_choices then Ok tt
              else Raise (ValidationError ["Value must be one of the choices."])
  | None => Ok tt
  end.

(** One check of a field in front of the others: a [ValidationError] is
    kept under the name of the field, any other exception ends the
    validation. *)
Definition collect (field : string) (r : result unit)
           (others : result (list (string * exn)))
  : result (list (string * exn)) :=
  match r with
  | Ok _ => others
  | Raise (ValidationError messages) =>
      errors <- others ;; Ok ((field, ValidationError messages) :: errors)
  | Raise e => Raise e
  end.

(** The errors of the three validators the class defines. *)
Definition validator_errors (d : t) : result (list (string * exn)) :=
  collect "hash" (validate_hash d (hash d))
    (collect "format" (validate_format d (format d))
       (collect "url" (validate_url d (url d)) (Ok []))).

(** Validation of what the class declares: the two field declarations
    and the three validators, each error under the name of its field. *)
Definition validate (d : t) : result (list (string * exn)) :=
  collect "format" (field_format (format d))
    (collect "documentType" (field_documentType (documentType d))
       (validator_errors d)).
End Validators.
End Document.

(** ** Auction: tenderPeriod and next_check *)

(** The names the module imports from [openprocurement.api] and
    [openprocurement.auctions.flash], and the attribute
    [block_complaint_status] the class inherits. *)
Class Imports : Type := {
  TZ : tzinfo;
  calc_auction_end_time : Z -> datetime -> datetime;
  calculate_business_date : datetime -> timedelta -> Auction.t -> datetime;
  COMPLAINT_STAND_STILL_TIME : timedelta;
  block_complaint_status : list string
}.

Section NextCheck.
Context {imports : Imports}.

(** [self.auctionPeriod.startDate] passed to [calculate_business_date]:
    without an auction period the attribute access raises, without a
    start date there is no date to shift. *)
Definition auction_tenderPeriod (self : Auction.t) : result Period.t :=
  let stored :=
    match Auction.tenderPeriod self with
    | Some p => if is_set (Period.endDate p) then Some p else None
    | None => None
    end in
  match stored with
  | Some p => Ok p
  | None =>
      match Auction.auctionPeriod self with
      | None => Raise AttributeError
      | Some ap =>
          match Period.startDate ap with
          | None => Raise TypeError
          | Some s =>
              let endDate := calculate_business_date s (- days 1) self in
              Ok (Period.mk None (Some endDate))
          end
      end
  end.

(** [i.status in self.block_complaint_status] *)
Definition blocking (i : Complaint.t) : bool :=
  str_in (Complaint.status i) block_complaint_status.

(** [period and period.startDate and not period.endDate]: the start date
    when the condition holds. *)
Definition open_startDate (period : option Period.t) : option datetime :=
  match period with
  | Some p =>
      match Period.startDate p, Period.endDate p with
      | Some s, None => Some s
      | _, _ => None
      end
  | None => None
  end.

(** The two cases under an auction period that has started or is to
    start: the start when it is ahead, else the end of the rounds when
    that is ahead. *)
Definition auction_deadline (now : datetime) (numberOfBids : Z)
           (startDate : datetime) : list datetime :=
  if dt_ltb now startDate
  then [astimezone TZ startDate]
  else if dt_ltb now (astimezone TZ (calc_auction_end_time numberOfBids startDate))
  then [astimezone TZ (calc_auction_end_time numberOfBids startDate)]
  else [].

(** The loop over the lots of an auction in [active.auction]. *)
Fixpoint lots_auction_checks (now : datetime) (lots : list Lot.t) : list datetime :=
  match lots with
  | [] => []
  | lot :: rest =>
      if negb (Lot.status lot =? "active")%string
      then lots_auction_checks now rest
      else
        match open_startDate (Lot.auctionPeriod lot) with
        | None => lots_auction_checks now rest
        | Some s =>
            (auction_deadline now (Lot.numberOfBids lot) s
             ++ lots_auction_checks now rest)%list
        end
  end.

(** [[a.complaintPeriod.endDate.astimezone(TZ) for a in awards
      if a.complaintPeriod.endDate]]: an award without a complaint period
    makes the attribute access raise. *)
Fixpoint standStillEnds (awards : list Award.t) : result (list datetime) :=
  match awards with
  | [] => Ok []
  | a :: rest =>
      match Award.complaintPeriod a with
      | None => Raise AttributeError
      | Some p =>
          ends <- standStillEnds rest ;;
          Ok match Period.endDate p with
             | Some e => astimezone TZ e :: ends
             | None => ends
             end
      end
  end.

(** [awards[-1].status if awards else ''] *)
Definition last_award_status (awards : list Award.t) : string :=
  match last_opt awards with
  | Some a => Award.status a
  | None => ""
  end.

(** [[max(ends)]] when [ends] is not empty and [go] holds. *)
Definition max_if (go : bool) (ends : list datetime) : list datetime :=
  match ends with
  | e :: rest => if go then [max_from e rest] else []
  | [] => []
  end.

(** The body of the branch of an auction without lots in
    [active.awarded]. *)
Definition awarded_checks (awards : list Award.t) : result (list datetime) :=
  ends <- standStillEnds awards ;;
  Ok (max_if (last_award_status awards =? "unsuccessful")%string ends).

(** The loop over the lots of an auction in [active.qualification] or
    [active.awarded]. *)
Fixpoint lots_awarded_checks (self : Auction.t) (lots : list Lot.t)
  : result (list datetime) :=
  match lots with
  | [] => Ok []
  | lot :: rest =>
      if negb (Lot.status lot =? "active")%string
      then lots_awarded_checks self rest
      else
        let lot_awards :=
          filter (fun i => opt_str_eqb (Award.lotID i) (Lot.id lot))
                 (Auction.awards self) in
        let pending_complaints :=
          existsb (fun i => blocking i
                            && opt_str_eqb (Complaint.relatedLot i) (Lot.id lot))
                  (Auction.complaints self) in
        let pending_awards_complaints :=
          existsb blocking (flat_map Award.complaints lot_awards) in
        ends <- standStillEnds lot_awards ;;
        let here :=
          max_if (negb pending_complaints && negb pending_awards_complaints
                  && (last_award_status lot_awards =? "unsuccessful")%string)
                 ends in
        more <- lots_awarded_checks self rest ;;
        Ok (here ++ more)%list
  end.

Definition has_lots (self : Auction.t) : bool :=
  match Auction.lots self with
  | [] => false
  | _ :: _ => true
  end.

(** [self.status == 'active.tendering' and self.tenderPeriod and
    self.tenderPeriod.endDate]: the end date when the condition holds. *)
Definition tendering_endDate (self : Auction.t) : option datetime :=
  if (Auction.status self =? "active.tendering")%string
  then match Auction.tenderPeriod self with
       | Some p => Period.endDate p
       | None => None
       end
  else None.

(** The [if]/[elif] chain: the candidates of the first branch whose
    condition holds. *)
Definition branch_checks (now : datetime) (self : Auction.t)
  : result (list datetime) :=
  let status := Auction.status self in
  match tendering_endDate self with
  | Some e => Ok [astimezone TZ e]
  | None =>
  match (if negb (has_lots self) && (status =? "active.auction")%string
         then open_startDate (Auction.auctionPeriod self) else None) with
  | Some s => Ok (auction_deadline now (Auction.numberOfBids self) s)
  | None =>
  if has_lots self && (status =? "active.auction")%string
  then Ok (lots_auction_checks now (Auction.lots self))
  else if negb (has_lots self) && (status =? "active.awarded")%string
          && negb (existsb blocking (Auction.complaints self))
          && negb (existsb blocking
                     (flat_map Award.complaints (Auction.awards self)))
  then awarded_checks (Auction.awards self)
  else if has_lots self
          && str_in status ["active.qualification"; "active.awarded"]
          && negb (existsb (fun i => blocking i
                                     && negb (is_set (Complaint.relatedLot i)))
                           (Auction.complaints self))
  then lots_awarded_checks self (Auction.lots self)
  else Ok []
  end
  end.

(** The candidate of one complaint. *)
Definition complaint_check (self : Auction.t) (complaint : Complaint.t)
  : list datetime :=
  match (if (Complaint.status complaint =? "claim")%string
         then Complaint.dateSubmitted complaint else None) with
  | Some d => [calculate_business_date d COMPLAINT_STAND_STILL_TIME self]
  | None =>
      match (if (Complaint.status complaint =? "answered")%string
             then Complaint.dateAnswered complaint else None) with
      | Some d => [calculate_business_date d COMPLAINT_STAND_STILL_TIME self]
      | None => []
      end
  end.

(** The two loops under [self.status.startswith('active')]. *)
Definition complaint_checks (self : Auction.t) : list datetime :=
  if String.prefix "active" (Auction.status self)
  then (flat_map (complaint_check self) (Auction.complaints self)
        ++ flat_map (fun award =>
                       flat_map (complaint_check self) (Award.complaints award))
                    (Auction.awards self))%list
  else [].

(** The list [checks] when the [return] is reached. *)
Definition checks (now : datetime) (self : Auction.t) : result (list datetime) :=
  found <- branch_checks now self ;;
  Ok (found ++ complaint_checks self)%list.

(** [min(checks) if checks else None] *)
Definition min_checks (cs : list datetime) : option datetime :=
  match cs with
  | [] => None
  | c :: rest => Some (min_from c rest)
  end.

(** [next_check] before the date is printed. *)
Definition next_check_date (now : datetime) (self : Auction.t)
  : result (option datetime) :=
  cs <- checks now self ;;
  Ok (min_checks cs).

Definition next_check (now : datetime) (self : Auction.t)
  : result (option string) :=
  cs <- checks now self ;;
  Ok (option_map isoformat (min_checks cs)).

End NextCheck.

(** ** The properties in the words of the specification *)

Section Words.
Context {imports : Imports}.

(** A complaint that starts a stand-still timer: a claim with its
    submission date, or an answered one with the date of the answer. *)
Definition stand_still_running (c : Complaint.t) : bool :=
  (Complaint.status c =? "claim")%string && is_set (Complaint.dateSubmitted c)
  || (Complaint.status c =? "answered")%string && is_set (Complaint.dateAnswered c).

(** Every complaint of the auction: its own and those of its awards. *)
Definition all_complaints (a : Auction.t) : list Complaint.t :=
  (Auction.complaints a ++ flat_map Award.complaints (Auction.awards a))%list.

(** The complaint period end dates of the awards that have one, in the
    system time zone. *)
Definition complaint_period_ends (awards : list Award.t) : list datetime :=
  flat_map (fun a =>
              match Award.complaintPeriod a with
              | Some p =>
                  match Period.endDate p with
                  | Some e => [astimezone TZ e]
                  | None => []
                  end
              | None => []
              end) awards.

(** The awards of a lot. *)
Definition awards_of (a : Auction.t) (lot : Lot.t) : list Award.t :=
  filter (fun i => opt_str_eqb (Award.lotID i) (Lot.id lot)) (Auction.awards a).

(** The condition under which a lot gives a stand-still candidate. *)
Definition lot_stand_still_over (a : Auction.t) (lot : Lot.t) : bool :=
  (Lot.status lot =? "active")%string
  && negb (existsb (fun i => blocking i
                             && opt_str_eqb (Complaint.relatedLot i) (Lot.id lot))
                   (Auction.complaints a))
  && negb (existsb blocking (flat_map Award.complaints (awards_of a lot)))
  && negb (is_empty (complaint_period_ends (awards_of a lot)))
  && (last_award_status (awards_of a lot) =? "unsuccessful")%string.

(** The lots that take part in the deadline of an auction in
    [active.auction]. *)
Definition lot_in_auction (lot : Lot.t) : bool :=
  (Lot.status lot =? "active")%string
  && match Lot.auctionPeriod lot with
     | Some p => is_set (Period.startDate p) && negb (is_set (Period.endDate p))
     | None => false
     end.

(** The deadline of such a lot: its start when [now] is before it, else
    the end of its rounds when [now] is before that. *)
Definition lot_deadline (now : datetime) (lot : Lot.t) : list datetime :=
  match Lot.auctionPeriod lot with
  | Some p =>
      match Period.startDate p with
      | Some s => auction_deadline now (Lot.numberOfBids lot) s
      | None => []
      end
  | None => []
  end.

(** The stand-still candidate of a lot: the latest of the complaint period
    end dates of its awards under that condition, none otherwise. *)
Definition lot_stand_still (a : Auction.t) (lot : Lot.t) : list datetime :=
  max_if (lot_stand_still_over a lot) (complaint_period_ends (awards_of a lot)).

(** A date is in the system time zone. *)
Definition in_TZ (d : datetime) : Prop := utcoffset d = TZ (utc d).

(** Every award of an active lot has a complaint period. *)
Definition lot_awards_have_periods (a : Auction.t) : Prop :=
  forall lot aw,
    In lot (Auction.lots a) -> Lot.status lot = "active" ->
    In aw (awards_of a lot) -> Award.complaintPeriod aw <> None.
End Words.

(** ** Documents *)

(** A validation fails with errors of fields. *)
Definition failed (r : result (list (string * exn))) : Prop :=
  exists errors, r = Ok errors /\ errors <> [].

(** The cases in which a validator of [Document] rejects: a field counts
    as given when it holds a non-empty value. *)
Definition rejected_by_validators (URLType_validate : string -> bool)
           (d : Document.t) : Prop :=
  (Document.is_virtualDataRoom d = true
   /\ Document.truthy (Document.hash d) = true)
  \/ (Document.is_virtualDataRoom d = true
      /\ Document.truthy (Document.format d) = true)
  \/ (Document.is_virtualDataRoom d = true
      /\ exists u, Document.url d = Some u /\ URLType_validate u = false)
  \/ (Document.is_virtualDataRoom d = false
      /\ Document.truthy (Document.format d) = false).

(** The cases in which a field declaration of [Document] rejects. *)
Definition rejected_by_fields (d : Document.t) : Prop :=
  (exists s, Document.format d = Some s /\ Document.format_regex s = false)
  \/ (exists s, Document.documentType d = Some s
                /\ str_in s Document.documentType_choices = false).

(** The four cases as the specification lists them, a field being present
    when it is not [None]. *)
Definition rejected_as_specified (URLType_validate : string -> bool)
           (d : Document.t) : Prop :=
  (Document.is_virtualDataRoom d = true /\ Document.hash d <> None)
  \/ (Document.is_virtualDataRoom d = true /\ Document.format d <> None)
  \/ (Document.is_virtualDataRoom d = true
      /\ ~ exists u, Document.url d = Some u /\ URLType_validate u = true)
  \/ (Document.is_virtualDataRoom d = false /\ Document.format d = None).

(** ** Sample data *)

Module Sample.
(** Modelled from the spec: [calculate_business_date] is not in this
    repository; it shifts the anchor by the offset. *)
Definition shift_date (anchor : datetime) (offset : timedelta)
           (context : Auction.t) : datetime :=
  dt_add anchor offset.

(** Modelled from the spec: [calc_auction_end_time] is not in this
    repository; the start plus a fixed baseline plus a fixed time per
    bid (here 24 and 6 minutes). *)
Definition rounds_end (bids : Z) (start : datetime) : datetime :=
  dt_add start (bids * 360000000 + 1440000000).

(** A zone two hours ahead of UTC the whole year, a stand-still of three
    days and the blocking statuses the specification names. *)
Definition imports : Imports := {|
  TZ := fun _ => 120;
  calc_auction_end_time := rounds_end;
  calculate_business_date := shift_date;
  COMPLAINT_STAND_STILL_TIME := days 3;
  block_complaint_status := ["claim"; "answered"; "pending"]
|}.

(** Seconds since the epoch, in UTC and in the zone of [imports]. *)
Definition at_utc (seconds : Z) : datetime := mkdatetime (seconds * 1000000) 0.
Definition at_tz (seconds : Z) : datetime := mkdatetime (seconds * 1000000) 120.

Definition d_2024_02_19 : Z := 1708300800.
Definition d_2024_02_20 : Z := 1708387200.
Definition d_2024_03_01 : Z := 1709251200.
Definition d_2024_03_05 : Z := 1709596800.

Definition now : datetime := at_tz d_2024_02_20.

(** Periods as they are stored, in UTC. *)
Definition ends_at (seconds : Z) : Period.t :=
  Period.mk None (Some (at_utc seconds)).
Definition starts_at (seconds : Z) : Period.t :=
  Period.mk (Some (at_utc seconds)) None.

Definition claim (submitted : datetime) (lot : option string) : Complaint.t :=
  Complaint.mk "claim" (Some submitted) None lot.

Definition auction (status : string) : Auction.t :=
  Auction.new None None None None None None (Some status) None 0.

(** In [active.tendering], with a claim submitted on 19 February. *)
Definition tendering : Auction.t :=
  Auction.new None (Some [claim (at_tz d_2024_02_19) None]) None
              (Some (ends_at d_2024_03_01)) None None
              (Some "active.tendering") None 0.

(** The same without the claim. *)
Definition tendering_quiet : Auction.t :=
  Auction.new None None None (Some (ends_at d_2024_03_01)) None None
              (Some "active.tendering") None 0.

(** Without lots in [active.auction]: the auction starts on 1 March,
    with and without a claim submitted on 19 February. *)
Definition waiting : Auction.t :=
  Auction.new None (Some [claim (at_tz d_2024_02_19) None]) None None
              (Some (starts_at d_2024_03_01)) None
              (Some "active.auction") None 2.

Definition waiting_quiet : Auction.t :=
  Auction.new None None None None
              (Some (starts_at d_2024_03_01)) None
              (Some "active.auction") None 2.

(** A moment on 1 March, ten minutes after the start. *)
Definition in_rounds : datetime := at_tz (d_2024_03_01 + 600).

(** Lots: one starts on 5 March, one on 1 March, one has ended and one
    is cancelled. *)
Definition lot_a : Lot.t := Lot.mk "a" "active" (Some (starts_at d_2024_03_05)) 2.
Definition lot_b : Lot.t := Lot.mk "b" "active" (Some (starts_at d_2024_03_01)) 3.
Definition lot_c : Lot.t :=
  Lot.mk "c" "active"
         (Some (Period.mk (Some (at_tz d_2024_02_19)) (Some (at_tz d_2024_02_20)))) 1.
Definition lot_d : Lot.t := Lot.mk "d" "cancelled" (Some (starts_at d_2024_02_20)) 0.

Definition four_lots : Auction.t :=
  Auction.new None (Some [claim (at_tz d_2024_02_19) (Some "a")]) None None None None
              (Some "active.auction") (Some [lot_a; lot_b; lot_c; lot_d]) 0.

Definition four_lots_quiet : Auction.t :=
  Auction.new None None None None None None
              (Some "active.auction") (Some [lot_a; lot_b; lot_c; lot_d]) 0.

(** Awards: complaint periods that end on 1 and on 5 March, one that has
    no end, and an award without a complaint period. *)
Definition award (lot : option string) (status : string)
           (period : option Period.t) : Award.t :=
  Award.mk lot status period [].

Definition awarded : Auction.t :=
  Auction.new (Some [award None "cancelled" (Some (ends_at d_2024_03_05));
                     award None "unsuccessful" (Some (ends_at d_2024_03_01))])
              None None None None None (Some "active.awarded") None 2.

Definition awarded_no_period : Auction.t :=
  Auction.new (Some [award None "cancelled" (Some (ends_at d_2024_03_05));
                     award None "unsuccessful" None])
              None None None None None (Some "active.awarded") None 2.

(** With lots: the awards of lot [a] are over on 5 March, lot [b] waits
    for an answer to a claim, lot [d] is cancelled. *)
Definition lots_awards : list Award.t :=
  [award (Some "a") "cancelled" (Some (ends_at d_2024_03_05));
   award (Some "b") "unsuccessful" (Some (ends_at d_2024_03_01));
   award (Some "a") "unsuccessful" (Some (ends_at d_2024_03_01))].

Definition lots_awarded : Auction.t :=
  Auction.new (Some lots_awards)
              (Some [claim (at_tz d_2024_02_19) (Some "b")])
              None None None None (Some "active.qualification")
              (Some [lot_a; lot_b; lot_d]) 0.

Definition lots_awarded_no_period : Auction.t :=
  Auction.new (Some (lots_awards ++ [award (Some "a") "unsuccessful" None])%list)
              None None None None None (Some "active.qualification")
              (Some [lot_a; lot_b; lot_d]) 0.

(** A zone with summer time: two hours ahead of UTC until
    2024-03-31T01:00:00Z, three hours from then on. *)
Definition summer_time : Z := 1711846800.

Definition seasonal : Imports := {|
  TZ := fun t => if t <? summer_time * 1000000 then 120 else 180;
  calc_auction_end_time := rounds_end;
  calculate_business_date := shift_date;
  COMPLAINT_STAND_STILL_TIME := days 3;
  block_complaint_status := ["claim"; "answered"; "pending"]
|}.

(** A claim submitted on 2024-03-29T12:00:00+02:00, in an auction that is
    in qualification. *)
Definition d_2024_03_29_noon : datetime := at_tz 1711706400.

Definition claimed : Auction.t :=
  Auction.new None (Some [claim d_2024_03_29_noon None]) None None None None
              (Some "active.qualification") None 0.

(** An answered complaint of an award. *)
Definition answered (on : datetime) : Complaint.t :=
  Complaint.mk "answered" (Some (at_tz d_2024_02_19)) (Some on) None.

Definition answered_award : Auction.t :=
  Auction.new (Some [Award.mk None "active" (Some (ends_at d_2024_03_05))
                              [answered (at_tz d_2024_02_20)]])
              None None (Some (ends_at d_2024_03_01)) None None
              (Some "active.tendering") None 0.

(** Auctions for the serialized tender period: one whose own period has
    its end, one that has only the start of the auction. *)
Definition scheduled : Auction.t :=
  Auction.new None None None None (Some (starts_at d_2024_03_05)) None
              None None 0.

(** Documents. *)
Definition url_ok (url : string) : bool := String.prefix "http://" url.

Definition notice_text : Document.t :=
  Document.mk (Some "notice") (Some "text") None (Some "http://example.org/notice").

Definition notice_pdf : Document.t :=
  Document.mk (Some "notice") (Some "application/pdf") None None.

Definition data_room_hashed : Document.t :=
  Document.mk (Some "virtualDataRoom") None (Some "md5:00000000000000000000000000000000")
              (Some "http://example.org/room").
End Sample.

(** ** The other methods of the models *)

(** [validate_not_available(items, *args)], the validator of [features]
    and [lots]: [if items] is false for [None] and for the empty list. *)
Definition validate_not_available {A : Type} (items : option (list A))
  : result unit :=
  match items with
  | Some (_ :: _) =>
      Raise (ValidationError ["Option not available in this procurementMethodType"])
  | _ => Ok tt
  end.

(** The value of an auction, as far as [validate_value] reads it. *)
Module Value.
Record t : Type := mk {
  currency : option string
}.
End Value.

(** [Auction.validate_value(data, value)]: [value.currency] of a missing
    value raises. *)
Definition validate_value (value : option Value.t) : result unit :=
  match value with
  | None => Raise AttributeError
  | Some v =>
      if opt_str_eqb (Value.currency v) "UAH" then Ok tt
      else Raise (ValidationError ["currency should be only UAH"])
  end.

(** What [validate_tenderPeriod] finds at ['auctionPeriod'] in [data]: no
    key, a key without a value, or a period. *)
Definition data_entry : Type := option (option Period.t).

(** [Auction.validate_tenderPeriod(data, period)].  The second half of the
    condition is only evaluated when the first holds; [data['auctionPeriod']]
    without a value makes [.startDate] raise. *)
Definition validate_tenderPeriod (data_auctionPeriod : data_entry)
           (period : option Period.t) : result unit :=
  let has_endDate :=
    match period with
    | Some p => is_set (Period.endDate p)
    | None => false
    end in
  if has_endDate then Ok tt
  else
    match data_auctionPeriod with
    | None => Raise (ValidationError ["This field is required."])
    | Some None => Raise AttributeError
    | Some (Some ap) =>
        if is_set (Period.startDate ap) then Ok tt
        else Raise (ValidationError ["This field is required."])
    end.

(** An auction object with the attributes [date] of the auction and of its
    lots, which the class inherits and [initialize] writes; [lot_dates]
    goes along [Auction.lots]. *)
Module Instance.
Record t : Type := mk {
  auction : Auction.t;
  date : option datetime;
  lot_dates : list (option datetime)
}.
End Instance.

Definition with_periods (a : Auction.t) (enquiryPeriod_ tenderPeriod_ : option Period.t)
  : Auction.t :=
  Auction.mk (Auction.awards a) (Auction.complaints a)
             enquiryPeriod_ tenderPeriod_ (Auction.auctionPeriod a)
             (Auction.procurementMethodType a) (Auction.status a)
             (Auction.lots a) (Auction.numberOfBids a).

(** [Auction.initialize()], [now] being what [get_now()] returns: the
    object after the call and how the call ended.  The enquiry period is
    made before the first assignment, which raises when there is no tender
    period. *)
Definition initialize (now : datetime) (self : Instance.t)
  : Instance.t * result unit :=
  let a := Instance.auction self in
  let enquiryPeriod :=
    match Auction.enquiryPeriod a with
    | Some p => p
    | None => Period.mk None None
    end in
  match Auction.tenderPeriod a with
  | None =>
      (Instance.mk (with_periods a (Some enquiryPeriod) None)
                   (Instance.date self) (Instance.lot_dates self),
       Raise AttributeError)
  | Some tenderPeriod =>
      let tenderPeriod' := Period.mk (Some now) (Period.endDate tenderPeriod) in
      let enquiryPeriod' := Period.mk (Some now) (Period.endDate tenderPeriod') in
      (Instance.mk (with_periods a (Some enquiryPeriod') (Some tenderPeriod'))
                   (Some now)
                   (map (fun _ => Some now) (Auction.lots a)),
       Ok tt)
  end.

(** ** Further properties in words *)

(** The entry of [data] is that of the auction. *)
Definition entry_of (a : Auction.t) (entry : data_entry) : Prop :=
  match entry with
  | None => Auction.auctionPeriod a = None
  | Some v => v = Auction.auctionPeriod a
  end.

(** Every character of a string is in a class. *)
Fixpoint all_chars (p : ascii -> bool) (s : string) : bool :=
  match s with
  | String c rest => p c && all_chars p rest
  | EmptyString => true
  end.

(** The strings [^[-\w]+/[-\.\w\+]+$] describes: a type, a slash, a
    subtype and possibly a last newline. *)
Definition mime_shaped (s : string) : Prop :=
  exists type subtype tail : string,
    s = (type ++ "/" ++ subtype ++ tail)%string
    /\ type <> "" /\ subtype <> ""
    /\ all_chars Document.head_char type = true
    /\ all_chars Document.tail_char subtype = true
    /\ (tail = "" \/ tail = String (ascii_of_nat 10) "").

(** ** More sample data *)

Module Cases.
(** A cancelled auction that still has lots, a claim and an award without
    a complaint period. *)
Definition cancelled : Auction.t :=
  Auction.new (Some [Sample.award (Some "a") "unsuccessful" None])
              (Some [Sample.claim (Sample.at_tz Sample.d_2024_02_19) None])
              None (Some (Sample.ends_at Sample.d_2024_03_01))
              (Some (Sample.starts_at Sample.d_2024_03_05)) None
              (Some "cancelled") (Some [Sample.lot_a; Sample.lot_b]) 2.

(** In [active.awarded] without lots: an award without a complaint period
    and a pending complaint of the other award. *)
Definition pending : Complaint.t := Complaint.mk "pending" None None None.

Definition awarded_blocked : Auction.t :=
  Auction.new (Some [Award.mk None "unsuccessful"
                              (Some (Sample.ends_at Sample.d_2024_03_05)) [pending];
                     Sample.award None "unsuccessful" None])
              None None None None None (Some "active.awarded") None 2.

(** Objects before [initialize]: one made with a tender period and two
    lots, one made with the start of the auction only. *)
Definition with_tenderPeriod : Instance.t :=
  Instance.mk
    (Auction.new None None None (Some (Sample.ends_at Sample.d_2024_03_01)) None
                 None None (Some [Sample.lot_a; Sample.lot_b]) 0)
    None [None; None].

Definition with_auctionPeriod : Instance.t :=
  Instance.mk Sample.scheduled None [].

Definition later : datetime := Sample.at_tz (Sample.d_2024_02_20 + 3600).


(** A data room with its url only. *)
Definition data_room : Document.t :=
  Document.mk (Some "virtualDataRoom") None None (Some "http://example.org/room").
End Cases.

(** * Properties *)

(** ** min and max *)

Lemma min_from_In (xs : list datetime) :
  forall x, In (min_from x xs) (x :: xs).
Proof.
  unfold min_from.
  induction xs as [|y ys IH]; intros x; simpl.
  - now left.
  - destruct (IH (if dt_ltb y x then y else x)) as [E | H].
    + rewrite <- E. destruct (dt_ltb y x); auto.
    + auto.
Qed.

Lemma min_from_start (xs : list datetime) :
  forall x, utc (min_from x xs) <= utc x.
Proof.
  unfold min_from, dt_ltb.
  induction xs as [|y ys IH]; intros x; simpl.
  - lia.
  - specialize (IH (if utc y <? utc x then y else x)).
    destruct (Z.ltb_spec (utc y) (utc x)); lia.
Qed.

Lemma min_from_le (xs : list datetime) :
  forall x y, In y (x :: xs) -> utc (min_from x xs) <= utc y.
Proof.
  induction xs as [|z zs IH]; intros x y H.
  - destruct H as [<- | []]. simpl. lia.
  - destruct H as [<- | H].
    + apply min_from_start.
    + change (min_from x (z :: zs))
        with (min_from (if dt_ltb z x then z else x) zs).
      destruct H as [<- | H].
      * pose proof (min_from_start zs (if dt_ltb z x then z else x)) as L.
        unfold dt_ltb in *. destruct (Z.ltb_spec (utc z) (utc x)); lia.
      * apply IH. now right.
Qed.

Lemma max_from_In (xs : list datetime) :
  forall x, In (max_from x xs) (x :: xs).
Proof.
  unfold max_from.
  induction xs as [|y ys IH]; intros x; simpl.
  - now left.
  - destruct (IH (if dt_ltb x y then y else x)) as [E | H].
    + rewrite <- E. destruct (dt_ltb x y); auto.
    + auto.
Qed.

Lemma max_from_start (xs : list datetime) :
  forall x, utc x <= utc (max_from x xs).
Proof.
  unfold max_from, dt_ltb.
  induction xs as [|y ys IH]; intros x; simpl.
  - lia.
  - specialize (IH (if utc x <? utc y then y else x)).
    destruct (Z.ltb_spec (utc x) (utc y)); lia.
Qed.

Lemma max_from_ge (xs : list datetime) :
  forall x y, In y (x :: xs) -> utc y <= utc (max_from x xs).
Proof.
  induction xs as [|z zs IH]; intros x y H.
  - destruct H as [<- | []]. simpl. lia.
  - destruct H as [<- | H].
    + apply max_from_start.
    + change (max_from x (z :: zs))
        with (max_from (if dt_ltb x z then z else x) zs).
      destruct H as [<- | H].
      * pose proof (max_from_start zs (if dt_ltb x z then z else x)) as L.
        unfold dt_ltb in *. destruct (Z.ltb_spec (utc x) (utc z)); lia.
      * apply IH. now right.
Qed.

Lemma flat_map_nil {A B : Type} (f : A -> list B) (xs : list A) :
  (forall x, In x xs -> f x = []) -> flat_map f xs = [].
Proof.
  induction xs as [|x xs IH]; intros H; simpl.
  - reflexivity.
  - rewrite (H x (or_introl eq_refl)), IH; auto.
    intros y Hy. apply H. now right.
Qed.

Section Properties.
Context {imports : Imports}.

(** ** The complaints' candidates *)

Lemma complaint_check_quiet (a : Auction.t) (c : Complaint.t) :
  stand_still_running c = false -> complaint_check a c = [].
Proof.
  unfold stand_still_running, complaint_check.
  destruct (Complaint.status c =? "claim")%string;
    destruct (Complaint.status c =? "answered")%string;
    destruct (Complaint.dateSubmitted c);
    destruct (Complaint.dateAnswered c); simpl; congruence.
Qed.

Lemma complaint_checks_quiet (a : Auction.t) :
  (forall c, In c (all_complaints a) -> stand_still_running c = false) ->
  complaint_checks a = [].
Proof.
  intros H. unfold complaint_checks.
  destruct (String.prefix "active" (Auction.status a)); [|reflexivity].
  rewrite !flat_map_nil; auto.
  - intros aw Haw. apply flat_map_nil. intros c Hc.
    apply complaint_check_quiet, H. unfold all_complaints.
    apply in_or_app. right. apply in_flat_map. eauto.
  - intros c Hc. apply complaint_check_quiet, H. unfold all_complaints.
    apply in_or_app. now left.
Qed.

Lemma next_check_of_checks (now : datetime) (a : Auction.t)
      (found : list datetime) :
  branch_checks now a = Ok found ->
  next_check now a
  = Ok (option_map isoformat (min_checks (found ++ complaint_checks a))).
Proof.
  intros H. unfold next_check, checks. rewrite H. reflexivity.
Qed.

(** ** active.tendering *)

Lemma branch_checks_tendering (now : datetime) (a : Auction.t)
      (p : Period.t) (d : datetime) :
  Auction.status a = "active.tendering" ->
  Auction.tenderPeriod a = Some p ->
  Period.endDate p = Some d ->
  branch_checks now a = Ok [astimezone TZ d].
Proof.
  intros Hs Hp Hd. unfold branch_checks, tendering_endDate.
  rewrite Hs, Hp, Hd. reflexivity.
Qed.

(** C1, as the code has it: in [active.tendering] with
    [tenderPeriod.endDate] set, [next_check] is the earliest of that end
    date, converted to [TZ], and the stand-still candidates of the
    complaints; whatever the lots, the awards and [now] are.  It is that
    end date itself when no complaint, of the auction or of an award, is
    a claim with its submission date or answered with its answer date. *)
Theorem next_check_tendering (now : datetime) (a : Auction.t)
        (p : Period.t) (d : datetime) :
  Auction.status a = "active.tendering" ->
  Auction.tenderPeriod a = Some p ->
  Period.endDate p = Some d ->
  next_check now a
  = Ok (Some (isoformat (min_from (astimezone TZ d) (complaint_checks a))))
  /\ ((forall c, In c (all_complaints a) -> stand_still_running c = false) ->
      next_check now a = Ok (Some (isoformat (astimezone TZ d)))).
Proof.
  intros Hs Hp Hd.
  rewrite (next_check_of_checks now a _ (branch_checks_tendering now a p d Hs Hp Hd)).
  split; [reflexivity|].
  intros Hq. rewrite (complaint_checks_quiet a Hq). reflexivity.
Qed.

(** ** active.auction *)

Lemma branch_checks_auction (now : datetime) (a : Auction.t)
      (ap : Period.t) (s : datetime) :
  Auction.lots a = [] ->
  Auction.status a = "active.auction" ->
  Auction.auctionPeriod a = Some ap ->
  Period.startDate ap = Some s ->
  Period.endDate ap = None ->
  branch_checks now a = Ok (auction_deadline now (Auction.numberOfBids a) s).
Proof.
  intros Hl Hs Hp Hd He. unfold branch_checks, tendering_endDate, has_lots.
  rewrite Hl, Hs, Hp. simpl. rewrite Hd, He. reflexivity.
Qed.

(** C5, as the code has it: without lots, in [active.auction], with the
    start of the auction period set and its end not set, [next_check] is
    the earliest of the deadline and the stand-still candidates of the
    complaints, where the deadline is the start when [now] is before it,
    and else the end of the rounds when [now] is before that; both in
    [TZ].  It is the deadline itself when no complaint is a claim with
    its submission date or answered with its answer date. *)
Theorem next_check_auction (now : datetime) (a : Auction.t)
        (ap : Period.t) (s : datetime) :
  Auction.lots a = [] ->
  Auction.status a = "active.auction" ->
  Auction.auctionPeriod a = Some ap ->
  Period.startDate ap = Some s ->
  Period.endDate ap = None ->
  forall deadline : datetime,
    (utc now < utc s /\ deadline = astimezone TZ s)
    \/ (utc s <= utc now
        /\ utc now < utc (calc_auction_end_time (Auction.numberOfBids a) s)
        /\ deadline
           = astimezone TZ (calc_auction_end_time (Auction.numberOfBids a) s)) ->
    next_check now a
    = Ok (Some (isoformat (min_from deadline (complaint_checks a))))
    /\ ((forall c, In c (all_complaints a) -> stand_still_running c = false) ->
        next_check now a = Ok (Some (isoformat deadline))).
Proof.
  intros Hl Hs Hp Hd He deadline Hcase.
  rewrite (next_check_of_checks now a _
             (branch_checks_auction now a ap s Hl Hs Hp Hd He)).
  assert (auction_deadline now (Auction.numberOfBids a) s = [deadline]) as ->.
  { unfold auction_deadline, dt_ltb. simpl.
    destruct Hcase as [[H ->] | (H1 & H2 & ->)].
    - apply Z.ltb_lt in H. now rewrite H.
    - apply Z.ltb_ge in H1. apply Z.ltb_lt in H2. now rewrite H1, H2. }
  split; [reflexivity|].
  intros Hq. rewrite (complaint_checks_quiet a Hq). reflexivity.
Qed.

Lemma lots_auction_checks_filter (now : datetime) (lots : list Lot.t) :
  lots_auction_checks now lots
  = flat_map (lot_deadline now) (filter lot_in_auction lots).
Proof.
  induction lots as [|lot rest IH]; simpl; [reflexivity|].
  unfold lot_in_auction at 1. unfold open_startDate.
  destruct (Lot.status lot =? "active")%string; simpl; [|exact IH].
  destruct (Lot.auctionPeriod lot) as [p|] eqn:Ep; [|exact IH].
  destruct (Period.startDate p) as [s|] eqn:Es,
           (Period.endDate p) as [e|] eqn:Ee; simpl; try exact IH.
  unfold lot_deadline at 1. now rewrite Ep, Es, IH.
Qed.

Lemma branch_checks_lots_auction (now : datetime) (a : Auction.t) :
  Auction.lots a <> [] ->
  Auction.status a = "active.auction" ->
  branch_checks now a
  = Ok (flat_map (lot_deadline now) (filter lot_in_auction (Auction.lots a))).
Proof.
  intros Hl Hs. unfold branch_checks, tendering_endDate, has_lots.
  rewrite Hs, <- lots_auction_checks_filter.
  destruct (Auction.lots a) as [|lot rest]; [congruence|reflexivity].
Qed.

(** C6, as the code has it: with lots, in [active.auction], [next_check]
    is the earliest of the deadlines of the lots and the stand-still
    candidates of the complaints, and nothing when there is none of
    either.  The lots that give a deadline are among the active ones with
    the start of their auction period set and its end not set; the
    deadline of a lot is its start when [now] is before it, and else the
    end of its rounds when [now] is before that. *)
Theorem next_check_lots_auction (now : datetime) (a : Auction.t) :
  Auction.lots a <> [] ->
  Auction.status a = "active.auction" ->
  let deadlines :=
    flat_map (lot_deadline now) (filter lot_in_auction (Auction.lots a)) in
  next_check now a
  = Ok (option_map isoformat (min_checks (deadlines ++ complaint_checks a)))
  /\ ((forall c, In c (all_complaints a) -> stand_still_running c = false) ->
      next_check now a = Ok (option_map isoformat (min_checks deadlines))).
Proof.
  intros Hl Hs deadlines.
  rewrite (next_check_of_checks now a _ (branch_checks_lots_auction now a Hl Hs)).
  split; [reflexivity|].
  intros Hq. rewrite (complaint_checks_quiet a Hq), app_nil_r. reflexivity.
Qed.

(** ** active.qualification and active.awarded *)

Lemma existsb_false {A : Type} (f : A -> bool) (xs : list A) :
  (forall x, In x xs -> f x = false) -> existsb f xs = false.
Proof.
  intros H. destruct (existsb f xs) eqn:E; [|reflexivity].
  apply existsb_exists in E. destruct E as (x & Hx & Hf).
  rewrite (H x Hx) in Hf. discriminate.
Qed.

Lemma standStillEnds_periods (awards : list Award.t) :
  (forall aw, In aw awards -> Award.complaintPeriod aw <> None) ->
  standStillEnds awards = Ok (complaint_period_ends awards).
Proof.
  induction awards as [|aw rest IH]; intros H; simpl; [reflexivity|].
  destruct (Award.complaintPeriod aw) as [p|] eqn:Ep.
  - rewrite IH by (intros x Hx; apply H; now right). simpl.
    destruct (Period.endDate p); reflexivity.
  - exfalso. apply (H aw); auto. now left.
Qed.

Lemma standStillEnds_raises (awards : list Award.t) (aw : Award.t) :
  In aw awards -> Award.complaintPeriod aw = None ->
  standStillEnds awards = Raise AttributeError.
Proof.
  induction awards as [|x rest IH]; intros Hin Hn; [destruct Hin|].
  simpl. destruct Hin as [-> | Hin].
  - now rewrite Hn.
  - destruct (Award.complaintPeriod x); [|reflexivity].
    now rewrite IH.
Qed.

(** [max_if]: one candidate, the latest end, or none. *)
Lemma max_if_true (ends : list datetime) :
  ends <> [] ->
  exists m, max_if true ends = [m] /\ In m ends
            /\ forall e, In e ends -> utc e <= utc m.
Proof.
  destruct ends as [|e rest]; [congruence|]. intros _.
  exists (max_from e rest). split; [reflexivity|]. split.
  - apply max_from_In.
  - intros x Hx. now apply max_from_ge.
Qed.

Lemma max_if_none (go : bool) (ends : list datetime) :
  go = false \/ ends = [] -> max_if go ends = [].
Proof.
  intros [-> | ->]; [destruct ends|]; reflexivity.
Qed.

Lemma branch_checks_awarded (now : datetime) (a : Auction.t) :
  Auction.lots a = [] ->
  Auction.status a = "active.awarded" ->
  (forall c, In c (all_complaints a) -> blocking c = false) ->
  branch_checks now a = awarded_checks (Auction.awards a).
Proof.
  intros Hl Hs Hb. unfold branch_checks, tendering_endDate, has_lots.
  rewrite Hl, Hs. simpl.
  rewrite !existsb_false; [reflexivity| |];
    intros c Hc; apply Hb, in_or_app; auto.
Qed.

(** The statement of C2 where every award has a complaint period:
    without lots, in [active.awarded], with no
    complaint of the auction or of an award in a blocking status, and
    with a complaint period in every award, the branch gives one
    candidate, the latest of the complaint period end dates of the
    awards, when there is such an end date and the last award is
    [unsuccessful], and no candidate otherwise. *)
Theorem awarded_stand_still (now : datetime) (a : Auction.t) :
  Auction.lots a = [] ->
  Auction.status a = "active.awarded" ->
  (forall c, In c (all_complaints a) -> blocking c = false) ->
  (forall aw, In aw (Auction.awards a) -> Award.complaintPeriod aw <> None) ->
  let ends := complaint_period_ends (Auction.awards a) in
  exists found,
    branch_checks now a = Ok found
    /\ checks now a = Ok (found ++ complaint_checks a)%list
    /\ (ends <> [] /\ last_award_status (Auction.awards a) = "unsuccessful" ->
        exists m, found = [m] /\ In m ends
                  /\ forall e, In e ends -> utc e <= utc m)
    /\ (~ (ends <> [] /\ last_award_status (Auction.awards a) = "unsuccessful") ->
        found = []).
Proof.
  intros Hl Hs Hb Hp ends.
  pose proof (branch_checks_awarded now a Hl Hs Hb) as Hbr.
  unfold awarded_checks in Hbr. rewrite (standStillEnds_periods _ Hp) in Hbr.
  simpl in Hbr. fold ends in Hbr.
  eexists. split; [exact Hbr|]. split.
  - unfold checks. rewrite Hbr. reflexivity.
  - split.
    + intros [Hne Hlast]. rewrite Hlast. simpl. now apply max_if_true.
    + intros Hno. apply max_if_none.
      destruct ends; [now right|left].
      destruct (String.eqb_spec (last_award_status (Auction.awards a)) "unsuccessful");
        [|reflexivity].
      exfalso. apply Hno. split; [discriminate|assumption].
Qed.

Lemma lots_awarded_checks_lots (a : Auction.t) (lots : list Lot.t) :
  (forall lot aw, In lot lots -> Lot.status lot = "active" ->
                  In aw (awards_of a lot) -> Award.complaintPeriod aw <> None) ->
  lots_awarded_checks a lots = Ok (flat_map (lot_stand_still a) lots).
Proof.
  induction lots as [|lot rest IH]; intros H; simpl; [reflexivity|].
  assert (lots_awarded_checks a rest = Ok (flat_map (lot_stand_still a) rest)) as Hrest
      by (apply IH; intros l aw Hl; apply H; now right).
  unfold lot_stand_still at 1, lot_stand_still_over.
  destruct (String.eqb_spec (Lot.status lot) "active") as [Hact|Hact]; simpl.
  - fold (awards_of a lot).
    rewrite (standStillEnds_periods (awards_of a lot))
      by (intros aw Haw; apply (H lot aw); auto; now left).
    rewrite Hrest. simpl. f_equal. f_equal.
    destruct (complaint_period_ends (awards_of a lot)); simpl.
    + reflexivity.
    + now rewrite andb_true_r.
  - rewrite (max_if_none false) by now left. exact Hrest.
Qed.

Lemma branch_checks_lots_awarded (now : datetime) (a : Auction.t) :
  Auction.lots a <> [] ->
  Auction.status a = "active.qualification" \/ Auction.status a = "active.awarded" ->
  (forall c, In c (Auction.complaints a) -> Complaint.relatedLot c = None ->
             blocking c = false) ->
  branch_checks now a = lots_awarded_checks a (Auction.lots a).
Proof.
  intros Hl Hs Hb. unfold branch_checks, tendering_endDate, has_lots.
  assert (existsb (fun i => blocking i && negb (is_set (Complaint.relatedLot i)))
                  (Auction.complaints a) = false) as ->.
  { apply existsb_false. intros c Hc.
    destruct (Complaint.relatedLot c) eqn:E; simpl.
    - apply andb_false_r.
    - now rewrite (Hb c Hc E). }
  destruct (Auction.lots a) as [|lot rest]; [congruence|].
  destruct Hs as [-> | ->]; reflexivity.
Qed.

(** The statement of C3 where every award of an active lot has a
    complaint period: with lots, in [active.qualification] or
    [active.awarded], with no complaint of the auction that is blocking and
    unrelated to a lot, and with a complaint period in every award of an
    active lot, the branch gives the candidates of the lots in their order;
    a lot gives one candidate, the latest of the complaint period end dates
    of its awards, when it is active, no complaint of the auction related
    to it is blocking, no complaint of its awards is blocking, there is
    such an end date and its last award is [unsuccessful]; and no candidate
    otherwise. *)
Theorem lots_stand_still (now : datetime) (a : Auction.t) :
  Auction.lots a <> [] ->
  Auction.status a = "active.qualification" \/ Auction.status a = "active.awarded" ->
  (forall c, In c (Auction.complaints a) -> Complaint.relatedLot c = None ->
             blocking c = false) ->
  lot_awards_have_periods a ->
  exists candidate : Lot.t -> list datetime,
    branch_checks now a = Ok (flat_map candidate (Auction.lots a))
    /\ checks now a
       = Ok (flat_map candidate (Auction.lots a) ++ complaint_checks a)%list
    /\ forall lot,
         let ends := complaint_period_ends (awards_of a lot) in
         (lot_stand_still_over a lot = true ->
          exists m, candidate lot = [m] /\ In m ends
                    /\ forall e, In e ends -> utc e <= utc m)
         /\ (lot_stand_still_over a lot = false -> candidate lot = []).
Proof.
  intros Hl Hs Hb Hp.
  pose proof (branch_checks_lots_awarded now a Hl Hs Hb) as Hbr.
  rewrite (lots_awarded_checks_lots a (Auction.lots a) Hp) in Hbr.
  exists (lot_stand_still a). split; [exact Hbr|]. split.
  - unfold checks. rewrite Hbr. reflexivity.
  - intros lot ends. unfold lot_stand_still. fold ends. split; intros Hc; rewrite Hc.
    + apply max_if_true. intros He. unfold lot_stand_still_over in Hc.
      fold ends in Hc. rewrite He in Hc. simpl in Hc.
      rewrite andb_false_r in Hc. discriminate.
    + apply max_if_none. now left.
Qed.

(** ** The result *)

Lemma in_TZ_astimezone (d : datetime) : in_TZ (astimezone TZ d).
Proof. reflexivity. Qed.

Lemma auction_deadline_in_TZ (now : datetime) (n : Z) (s d : datetime) :
  In d (auction_deadline now n s) -> in_TZ d.
Proof.
  unfold auction_deadline.
  destruct (dt_ltb now s);
    [|destruct (dt_ltb now (astimezone TZ (calc_auction_end_time n s)))];
    simpl; intros H; try tauto; destruct H as [<- | []]; apply in_TZ_astimezone.
Qed.

Lemma lots_auction_checks_in_TZ (now : datetime) (lots : list Lot.t) (d : datetime) :
  In d (lots_auction_checks now lots) -> in_TZ d.
Proof.
  induction lots as [|lot rest IH]; simpl; [tauto|].
  destruct (negb (Lot.status lot =? "active")%string); [exact IH|].
  destruct (open_startDate (Lot.auctionPeriod lot)); [|exact IH].
  intros H. apply in_app_or in H. destruct H as [H | H]; [|now apply IH].
  now apply auction_deadline_in_TZ in H.
Qed.

Lemma standStillEnds_in_TZ (awards : list Award.t) :
  forall ends d, standStillEnds awards = Ok ends -> In d ends -> in_TZ d.
Proof.
  induction awards as [|aw rest IH]; simpl; intros ends d H Hd.
  - injection H as <-. destruct Hd.
  - destruct (Award.complaintPeriod aw) as [p|]; [|discriminate].
    destruct (standStillEnds rest) as [ends'|]; [|discriminate].
    simpl in H. injection H as <-.
    destruct (Period.endDate p).
    + destruct Hd as [<- | Hd]; [apply in_TZ_astimezone|]. now apply (IH ends').
    + now apply (IH ends').
Qed.

Lemma max_if_In (go : bool) (ends : list datetime) (d : datetime) :
  In d (max_if go ends) -> In d ends.
Proof.
  destruct ends as [|e rest]; simpl; [tauto|].
  destruct go; simpl; [|tauto].
  intros [<- | []]. apply max_from_In.
Qed.

Lemma lots_awarded_checks_in_TZ (a : Auction.t) (lots : list Lot.t) :
  forall found d, lots_awarded_checks a lots = Ok found -> In d found -> in_TZ d.
Proof.
  induction lots as [|lot rest IH]; simpl; intros found d H Hd.
  - injection H as <-. destruct Hd.
  - destruct (negb (Lot.status lot =? "active")%string); [now apply (IH found)|].
    destruct (standStillEnds _) as [ends|] eqn:Ee; [|discriminate].
    destruct (lots_awarded_checks a rest) as [more|]; [|discriminate].
    simpl in H. injection H as <-.
    apply in_app_or in Hd. destruct Hd as [Hd | Hd]; [|now apply (IH more)].
    apply max_if_In in Hd. exact (standStillEnds_in_TZ _ _ _ Ee Hd).
Qed.

Lemma branch_checks_in_TZ (now : datetime) (a : Auction.t) :
  forall found d, branch_checks now a = Ok found -> In d found -> in_TZ d.
Proof.
  unfold branch_checks. intros found d.
  destruct (tendering_endDate a).
  { intros H Hd. injection H as <-. destruct Hd as [<- | []]. apply in_TZ_astimezone. }
  destruct (if negb (has_lots a) && (Auction.status a =? "active.auction")%string
            then open_startDate (Auction.auctionPeriod a) else None).
  { intros H Hd. injection H as <-. now apply auction_deadline_in_TZ in Hd. }
  destruct (has_lots a && (Auction.status a =? "active.auction")%string).
  { intros H Hd. injection H as <-. now apply lots_auction_checks_in_TZ in Hd. }
  match goal with |- context [if ?c then awarded_checks _ else _] => destruct c end.
  { unfold awarded_checks.
    destruct (standStillEnds (Auction.awards a)) as [ends|] eqn:Ee; [|discriminate].
    simpl. intros H Hd. injection H as <-.
    apply max_if_In in Hd. exact (standStillEnds_in_TZ _ _ _ Ee Hd). }
  match goal with |- context [if ?c then lots_awarded_checks _ _ else _] => destruct c end.
  { apply lots_awarded_checks_in_TZ. }
  intros H Hd. injection H as <-. destruct Hd.
Qed.

(** The minimum, and the zone of the candidates of the periods: when the
    candidates are collected,
    [next_check] is nothing if there is none and else the earliest of
    them, printed; the candidates of the branch chain, which come from
    periods, are in [TZ], those of the complaints are as
    [calculate_business_date] gives them. *)
Theorem next_check_minimum (now : datetime) (a : Auction.t)
        (found : list datetime) :
  branch_checks now a = Ok found ->
  let cs := (found ++ complaint_checks a)%list in
  checks now a = Ok cs
  /\ (cs = [] -> next_check now a = Ok None)
  /\ (cs <> [] ->
      exists m, next_check_date now a = Ok (Some m)
                /\ next_check now a = Ok (Some (isoformat m))
                /\ In m cs
                /\ forall c, In c cs -> utc m <= utc c)
  /\ (forall d, In d found -> in_TZ d).
Proof.
  intros Hbr cs.
  assert (checks now a = Ok cs) as Hcs by (unfold checks; now rewrite Hbr).
  split; [exact Hcs|]. unfold next_check, next_check_date. rewrite Hcs. simpl.
  split; [now intros ->|]. split.
  - destruct cs as [|c rest]; [congruence|]. intros _.
    exists (min_from c rest). repeat split.
    + apply min_from_In.
    + intros x Hx. now apply min_from_le.
  - intros d Hd. exact (branch_checks_in_TZ now a found d Hbr Hd).
Qed.

(** Where every award has a complaint period the branch chain gives its
    candidates. *)
Lemma branch_checks_returns (now : datetime) (a : Auction.t) :
  (forall aw, In aw (Auction.awards a) -> Award.complaintPeriod aw <> None) ->
  exists found, branch_checks now a = Ok found.
Proof.
  intros Hp. unfold branch_checks.
  destruct (tendering_endDate a); [eauto|].
  destruct (if negb (has_lots a) && (Auction.status a =? "active.auction")%string
            then open_startDate (Auction.auctionPeriod a) else None); [eauto|].
  destruct (has_lots a && (Auction.status a =? "active.auction")%string); [eauto|].
  match goal with |- context [if ?c then awarded_checks _ else _] => destruct c end.
  { unfold awarded_checks. rewrite (standStillEnds_periods _ Hp). simpl. eauto. }
  match goal with |- context [if ?c then lots_awarded_checks _ _ else _] => destruct c end.
  { rewrite lots_awarded_checks_lots; [eauto|].
    intros lot aw _ _ Haw. apply Hp. unfold awards_of in Haw.
    now apply filter_In in Haw. }
  eauto.
Qed.

(** The statement of C7 where the branch chain gives its candidates:
    when the status starts with [active], for every complaint of the
    auction and of its awards, a claim with its submission date gives the
    candidate [calculate_business_date(dateSubmitted,
    COMPLAINT_STAND_STILL_TIME, auction)], an answered one with its answer
    date gives [calculate_business_date(dateAnswered,
    COMPLAINT_STAND_STILL_TIME, auction)], and these candidates come on top
    of those of the branch that was taken. *)
Theorem complaints_stand_still (now : datetime) (a : Auction.t)
        (found : list datetime) :
  String.prefix "active" (Auction.status a) = true ->
  branch_checks now a = Ok found ->
  exists cs,
    checks now a = Ok cs
    /\ (forall d, In d found -> In d cs)
    /\ (forall c d, In c (all_complaints a) ->
                    Complaint.status c = "claim" ->
                    Complaint.dateSubmitted c = Some d ->
                    In (calculate_business_date d COMPLAINT_STAND_STILL_TIME a) cs)
    /\ (forall c d, In c (all_complaints a) ->
                    Complaint.status c = "answered" ->
                    Complaint.dateAnswered c = Some d ->
                    In (calculate_business_date d COMPLAINT_STAND_STILL_TIME a) cs).
Proof.
  intros Hact Hbr. exists (found ++ complaint_checks a)%list.
  split; [unfold checks; now rewrite Hbr|].
  split; [intros d Hd; apply in_or_app; now left|].
  assert (forall c x, In c (all_complaints a) -> In x (complaint_check a c) ->
                      In x (found ++ complaint_checks a)%list) as Hin.
  { intros c x Hc Hx. apply in_or_app. right.
    unfold complaint_checks. rewrite Hact.
    unfold all_complaints in Hc. apply in_or_app.
    apply in_app_or in Hc. destruct Hc as [Hc | Hc].
    - left. apply in_flat_map. eauto.
    - right. apply in_flat_map in Hc. destruct Hc as (aw & Haw & Hc).
      apply in_flat_map. exists aw. split; [assumption|].
      apply in_flat_map. eauto. }
  split; intros c d Hc Hs Hd; apply (Hin c _ Hc); unfold complaint_check;
    rewrite Hs, Hd; simpl; auto.
Qed.

(** ** The serialized tender period *)

(** C10: the serialized [tenderPeriod] is the stored one when that has its
    end date; otherwise, the start of the auction period being set, it is a
    period without start whose end is [calculate_business_date] of that
    start, minus one day, and the auction. *)
Theorem auction_tenderPeriod_serialized (a : Auction.t) :
  (forall p e, Auction.tenderPeriod a = Some p -> Period.endDate p = Some e ->
               auction_tenderPeriod a = Ok p)
  /\ (forall ap s,
        (forall p, Auction.tenderPeriod a = Some p -> Period.endDate p = None) ->
        Auction.auctionPeriod a = Some ap -> Period.startDate ap = Some s ->
        auction_tenderPeriod a
        = Ok (Period.mk None
                (Some (calculate_business_date s (- days 1) a)))).
Proof.
  unfold auction_tenderPeriod. split.
  - intros p e Hp He. now rewrite Hp, He.
  - intros ap s Hno Hap Hs. rewrite Hap, Hs.
    destruct (Auction.tenderPeriod a) as [p|]; [|reflexivity].
    now rewrite (Hno p eq_refl).
Qed.

(** C8, as the code has it: an auction made without a status is in
    [active.tendering]; [draft] is one of the statuses it may be given. *)
Theorem new_auction_status
        (awards_ : option (list Award.t)) (complaints_ : option (list Complaint.t))
        (enquiryPeriod_ tenderPeriod_ auctionPeriod_ : option Period.t)
        (procurementMethodType_ : option string)
        (lots_ : option (list Lot.t)) (numberOfBids_ : Z) :
  Auction.status
    (Auction.new awards_ complaints_ enquiryPeriod_ tenderPeriod_ auctionPeriod_
                 procurementMethodType_ None lots_ numberOfBids_)
  = "active.tendering"
  /\ In "active.tendering" Auction.status_choices
  /\ In "draft" Auction.status_choices.
Proof.
  split; [reflexivity|]. split; simpl; tauto.
Qed.

End Properties.

(** ** Document *)

Lemma collect_validation (field : string) (r : result unit)
      (errors : list (string * exn)) :
  (forall e, r = Raise e -> exists messages, e = ValidationError messages) ->
  exists errors',
    Document.collect field r (Ok errors) = Ok errors'
    /\ (errors' <> [] <-> r <> Ok tt \/ errors <> []).
Proof.
  intros Hr. destruct r as [[]|e]; simpl.
  - exists errors. split; [reflexivity|]. split; [now right|].
    intros [H | H]; congruence.
  - destruct (Hr e eq_refl) as (m & ->). eexists. split; [reflexivity|].
    split; [intros _; left|]; discriminate.
Qed.

Lemma validate_hash_raised (d : Document.t) :
  (forall e, Document.validate_hash d (Document.hash d) = Raise e ->
             exists messages, e = ValidationError messages)
  /\ (Document.validate_hash d (Document.hash d) <> Ok tt
      <-> Document.is_virtualDataRoom d = true
          /\ Document.truthy (Document.hash d) = true).
Proof.
  unfold Document.validate_hash.
  destruct (Document.is_virtualDataRoom d), (Document.truthy (Document.hash d));
    simpl; split; try (intros e H; injection H as <-; eauto);
    try discriminate; split; intros H; try congruence; try tauto;
    try discriminate; destruct H; discriminate.
Qed.

Lemma validate_format_raised (d : Document.t) :
  (forall e, Document.validate_format d (Document.format d) = Raise e ->
             exists messages, e = ValidationError messages)
  /\ (Document.validate_format d (Document.format d) <> Ok tt
      <-> (Document.is_virtualDataRoom d = true
           /\ Document.truthy (Document.format d) = true)
          \/ (Document.is_virtualDataRoom d = false
              /\ Document.truthy (Document.format d) = false)).
Proof.
  unfold Document.validate_format.
  destruct (Document.is_virtualDataRoom d), (Document.truthy (Document.format d));
    simpl; split; try (intros e H; injection H as <-; eauto);
    try discriminate; split; intros H; try congruence; try tauto;
    try discriminate; destruct H as [[H1 H2] | [H1 H2]]; discriminate.
Qed.

Lemma validate_url_raised (URLType_validate : string -> bool) (d : Document.t) :
  (Document.is_virtualDataRoom d = true -> exists u, Document.url d = Some u) ->
  (forall e, Document.validate_url URLType_validate d (Document.url d) = Raise e ->
             exists messages, e = ValidationError messages)
  /\ (Document.validate_url URLType_validate d (Document.url d) <> Ok tt
      <-> Document.is_virtualDataRoom d = true
          /\ exists u, Document.url d = Some u /\ URLType_validate u = false).
Proof.
  unfold Document.validate_url. intros Hu.
  destruct (Document.is_virtualDataRoom d).
  - destruct (Hu eq_refl) as (u & ->).
    destruct (URLType_validate u) eqn:Eu; split;
      try (intros e H; injection H as <-; eauto); try discriminate; split.
    + congruence.
    + intros (_ & x & Hx & H). injection Hx as <-. congruence.
    + intros _. split; [reflexivity|]. now exists u.
    + discriminate.
  - split; [discriminate|]. split; [congruence|]. intros [H _]. discriminate.
Qed.

Lemma field_format_raised (format_ : option string) :
  (forall e, Document.field_format format_ = Raise e ->
             exists messages, e = ValidationError messages)
  /\ (Document.field_format format_ <> Ok tt
      <-> exists s, format_ = Some s /\ Document.format_regex s = false).
Proof.
  unfold Document.field_format.
  destruct format_ as [s|]; [destruct (Document.format_regex s) eqn:E|];
    split; try (intros e H; injection H as <-; eauto); try discriminate; split.
  - congruence.
  - intros (x & Hx & Hr). injection Hx as <-. congruence.
  - intros _. now exists s.
  - discriminate.
  - congruence.
  - intros (x & Hx & _). discriminate.
Qed.

Lemma field_documentType_raised (documentType_ : option string) :
  (forall e, Document.field_documentType documentType_ = Raise e ->
             exists messages, e = ValidationError messages)
  /\ (Document.field_documentType documentType_ <> Ok tt
      <-> exists s, documentType_ = Some s
                    /\ str_in s Document.documentType_choices = false).
Proof.
  unfold Document.field_documentType.
  destruct documentType_ as [s|];
    [destruct (str_in s Document.documentType_choices) eqn:E|];
    split; try (intros e H; injection H as <-; eauto); try discriminate; split.
  - congruence.
  - intros (x & Hx & Hr). injection Hx as <-. congruence.
  - intros _. now exists s.
  - discriminate.
  - congruence.
  - intros (x & Hx & _). discriminate.
Qed.

Lemma validator_errors_rejected (URLType_validate : string -> bool)
      (d : Document.t) :
  (Document.is_virtualDataRoom d = true -> exists u, Document.url d = Some u) ->
  exists errors,
    Document.validator_errors URLType_validate d = Ok errors
    /\ (errors <> [] <-> rejected_by_validators URLType_validate d).
Proof.
  intros Hu. unfold Document.validator_errors, rejected_by_validators.
  destruct (validate_url_raised URLType_validate d Hu) as (Hue & Hur).
  destruct (validate_format_raised d) as (Hfe & Hfr).
  destruct (validate_hash_raised d) as (Hhe & Hhr).
  destruct (collect_validation "url" _ [] Hue) as (e1 & -> & H1).
  destruct (collect_validation "format" _ e1 Hfe) as (e2 & -> & H2).
  destruct (collect_validation "hash" _ e2 Hhe) as (e3 & -> & H3).
  exists e3. split; [reflexivity|]. split.
  - intros H. apply H3 in H. destruct H as [H | H]; [left; now apply Hhr|].
    apply H2 in H. destruct H as [H | H].
    + apply Hfr in H. destruct H as [H | H]; [right; now left|now repeat right].
    + apply H1 in H. destruct H as [H | H]; [|congruence].
      right. right. left. now apply Hur.
  - intros H. apply H3. destruct H as [H | [H | [H | H]]].
    + left. now apply Hhr.
    + right. apply H2. left. apply Hfr. now left.
    + right. apply H2. right. apply H1. left. now apply Hur.
    + right. apply H2. left. apply Hfr. now right.
Qed.

(** C9, as the code has it, for every document but a [virtualDataRoom]
    that has no url: the validators of [Document] reject exactly when the
    document is a [virtualDataRoom] and [hash] is given, or is a
    [virtualDataRoom] and [format] is given, or is a [virtualDataRoom] and
    [url] does not pass the URL validation, or is not a [virtualDataRoom]
    and [format] is not given; a field being given when it holds a
    non-empty value.  Validation of what the class declares ends with
    errors of fields exactly in these cases and when [format] does not
    match its regular expression or [documentType] is not one of the
    choices. *)
Theorem document_validation (URLType_validate : string -> bool)
        (d : Document.t) :
  (Document.is_virtualDataRoom d = true -> exists u, Document.url d = Some u) ->
  (failed (Document.validator_errors URLType_validate d)
   <-> rejected_by_validators URLType_validate d)
  /\ (failed (Document.validate URLType_validate d)
      <-> rejected_by_validators URLType_validate d \/ rejected_by_fields d)
  /\ exists errors, Document.validate URLType_validate d = Ok errors.
Proof.
  intros Hu. unfold failed, Document.validate, rejected_by_fields.
  destruct (validator_errors_rejected URLType_validate d Hu) as (ev & -> & Hv).
  destruct (field_documentType_raised (Document.documentType d)) as (Hte & Htr).
  destruct (field_format_raised (Document.format d)) as (Hfe & Hfr).
  destruct (collect_validation "documentType" _ ev Hte) as (e1 & -> & H1).
  destruct (collect_validation "format" _ e1 Hfe) as (e2 & -> & H2).
  split; [|split; [|now exists e2]].
  - split.
    + intros (x & Hx & Hne). injection Hx as <-. now apply Hv.
    + intros H. exists ev. split; [reflexivity|now apply Hv].
  - split.
    + intros (x & Hx & Hne). injection Hx as <-.
      apply H2 in Hne. destruct Hne as [Hne | Hne].
      * right. left. now apply Hfr.
      * apply H1 in Hne. destruct Hne as [Hne | Hne].
        -- right. right. now apply Htr.
        -- left. now apply Hv.
    + intros H. exists e2. split; [reflexivity|]. apply H2.
      destruct H as [H | [H | H]].
      * right. apply H1. right. now apply Hv.
      * left. now apply Hfr.
      * right. apply H1. left. now apply Htr.
Qed.

(** C1 at a sample auction: the end date of the tender period and the
    claim of [Sample.tendering_quiet]. *)
Lemma next_check_tendering_witness :
  @next_check Sample.imports Sample.now Sample.tendering_quiet
  = Ok (Some "2024-03-01T02:00:00+02:00").
Proof.
  refine (proj2 (@next_check_tendering Sample.imports Sample.now
                   Sample.tendering_quiet (Sample.ends_at Sample.d_2024_03_01)
                   (Sample.at_utc Sample.d_2024_03_01)
                   eq_refl eq_refl eq_refl) _).
  intros c H. simpl in H. destruct H.
Defined.

(** C1 as the specification states it fails: the tender period of
    [Sample.tendering] ends on 1 March, a claim was submitted on
    19 February, and [next_check] is the end of the claim's three days. *)
Lemma next_check_tendering_counterexample :
  Auction.status Sample.tendering = "active.tendering"
  /\ Auction.tenderPeriod Sample.tendering = Some (Sample.ends_at Sample.d_2024_03_01)
  /\ @next_check Sample.imports Sample.now Sample.tendering
     = Ok (Some "2024-02-22T02:00:00+02:00")
  /\ @next_check Sample.imports Sample.now Sample.tendering
     <> Ok (Some (isoformat (astimezone (@TZ Sample.imports)
                                        (Sample.at_utc Sample.d_2024_03_01)))).
Proof.
  repeat split; vm_compute; discriminate.
Qed.

(** C8 as the specification states it fails: the status of an auction made
    from no data is not [draft]. *)
Lemma new_auction_status_counterexample :
  Auction.status (Auction.new None None None None None None None None 0)
  <> "draft".
Proof.
  vm_compute. discriminate.
Qed.

(** C5 at a sample auction: before the start, and during the rounds. *)
Lemma next_check_auction_witness :
  @next_check Sample.imports Sample.now Sample.waiting_quiet
  = Ok (Some "2024-03-01T02:00:00+02:00")
  /\ @next_check Sample.imports Sample.in_rounds Sample.waiting_quiet
     = Ok (Some "2024-03-01T02:36:00+02:00").
Proof.
  split.
  - refine (proj2 (@next_check_auction Sample.imports Sample.now
                     Sample.waiting_quiet (Sample.starts_at Sample.d_2024_03_01)
                     (Sample.at_utc Sample.d_2024_03_01)
                     eq_refl eq_refl eq_refl eq_refl eq_refl
                     (Sample.at_tz Sample.d_2024_03_01)
                     (or_introl (conj eq_refl eq_refl))) _).
    intros c H. simpl in H. destruct H.
  - refine (proj2 (@next_check_auction Sample.imports Sample.in_rounds
                     Sample.waiting_quiet (Sample.starts_at Sample.d_2024_03_01)
                     (Sample.at_utc Sample.d_2024_03_01)
                     eq_refl eq_refl eq_refl eq_refl eq_refl
                     (Sample.at_tz (Sample.d_2024_03_01 + 2160))
                     (or_intror (conj _ (conj eq_refl eq_refl)))) _).
    + vm_compute. discriminate.
    + intros c H. simpl in H. destruct H.
Defined.

(** C5 as the specification states it fails: [Sample.waiting] starts on
    1 March, [Sample.now] is before, and [next_check] is the end of the
    stand-still of the claim of 19 February. *)
Lemma next_check_auction_counterexample :
  Auction.lots Sample.waiting = []
  /\ Auction.status Sample.waiting = "active.auction"
  /\ Auction.auctionPeriod Sample.waiting = Some (Sample.starts_at Sample.d_2024_03_01)
  /\ utc Sample.now < utc (Sample.at_utc Sample.d_2024_03_01)
  /\ @next_check Sample.imports Sample.now Sample.waiting
     = Ok (Some "2024-02-22T02:00:00+02:00")
  /\ @next_check Sample.imports Sample.now Sample.waiting
     <> Ok (Some (isoformat (astimezone (@TZ Sample.imports)
                                        (Sample.at_utc Sample.d_2024_03_01)))).
Proof.
  repeat split; vm_compute; discriminate.
Qed.

(** C6 at a sample auction: of the four lots, [b] starts first. *)
Lemma next_check_lots_auction_witness :
  @next_check Sample.imports Sample.now Sample.four_lots_quiet
  = Ok (Some "2024-03-01T02:00:00+02:00").
Proof.
  refine (proj2 (@next_check_lots_auction Sample.imports Sample.now
                   Sample.four_lots_quiet _ eq_refl) _).
  - discriminate.
  - intros c H. simpl in H. destruct H.
Defined.

(** C6 as the specification states it fails: the earliest deadline of the
    lots of [Sample.four_lots] is 1 March, and [next_check] is the end of
    the stand-still of the claim of 19 February. *)
Lemma next_check_lots_auction_counterexample :
  Auction.lots Sample.four_lots <> []
  /\ Auction.status Sample.four_lots = "active.auction"
  /\ option_map isoformat
       (@min_checks
          (flat_map (@lot_deadline Sample.imports Sample.now)
                    (filter lot_in_auction (Auction.lots Sample.four_lots))))
     = Some "2024-03-01T02:00:00+02:00"
  /\ @next_check Sample.imports Sample.now Sample.four_lots
     = Ok (Some "2024-02-22T02:00:00+02:00")
  /\ @next_check Sample.imports Sample.now Sample.four_lots
     <> Ok (option_map isoformat
             (@min_checks
                (flat_map (@lot_deadline Sample.imports Sample.now)
                          (filter lot_in_auction (Auction.lots Sample.four_lots))))).
Proof.
  repeat split; vm_compute; try reflexivity; discriminate.
Qed.

(** At a sample auction: of the end dates 5 March and 1 March the
    candidate is the later. *)
Lemma awarded_stand_still_witness :
  exists found,
    @branch_checks Sample.imports Sample.now Sample.awarded = Ok found
    /\ found = [Sample.at_tz Sample.d_2024_03_05]
    /\ @next_check Sample.imports Sample.now Sample.awarded
       = Ok (Some "2024-03-05T02:00:00+02:00").
Proof.
  destruct (@awarded_stand_still Sample.imports Sample.now Sample.awarded)
    as (found & Hb & _ & _ & _).
  - reflexivity.
  - reflexivity.
  - intros c H. simpl in H. destruct H.
  - intros aw H. simpl in H. destruct H as [<- | [<- | []]]; discriminate.
  - exists found. split; [exact Hb|]. split; [|reflexivity].
    change (Ok [Sample.at_tz Sample.d_2024_03_05] = Ok found) in Hb.
    now injection Hb as <-.
Defined.

(** C2 at the failing input [Sample.awarded_no_period]: the last award is
    [unsuccessful] and has no complaint period, the first one ends on
    5 March, nothing blocks; the candidate would be 5 March, and
    [next_check] raises [AttributeError]. *)
Lemma awarded_stand_still_raises :
  Auction.lots Sample.awarded_no_period = []
  /\ Auction.status Sample.awarded_no_period = "active.awarded"
  /\ @all_complaints Sample.awarded_no_period = []
  /\ @complaint_period_ends Sample.imports (Auction.awards Sample.awarded_no_period)
     = [Sample.at_tz Sample.d_2024_03_05]
  /\ last_award_status (Auction.awards Sample.awarded_no_period) = "unsuccessful"
  /\ @branch_checks Sample.imports Sample.now Sample.awarded_no_period
     = Raise AttributeError
  /\ @next_check Sample.imports Sample.now Sample.awarded_no_period
     = Raise AttributeError.
Proof.
  repeat split.
Qed.

(** At a sample auction: lot [a] gives 5 March, the later end date of
    its two awards; lot [b] waits for the claim, lot [d] is cancelled. *)
Lemma lots_stand_still_witness :
  exists candidate : Lot.t -> list datetime,
    @branch_checks Sample.imports Sample.now Sample.lots_awarded
    = Ok (flat_map candidate (Auction.lots Sample.lots_awarded))
    /\ candidate Sample.lot_a = [Sample.at_tz Sample.d_2024_03_05]
    /\ candidate Sample.lot_b = []
    /\ candidate Sample.lot_d = [].
Proof.
  destruct (@lots_stand_still Sample.imports Sample.now Sample.lots_awarded)
    as (candidate & Hb & _ & Hc).
  - discriminate.
  - now left.
  - intros c H. simpl in H. destruct H as [<- | []]. discriminate.
  - intros lot aw _ _ H. unfold awards_of in H. apply filter_In in H.
    destruct H as [H _]. simpl in H.
    destruct H as [<- | [<- | [<- | []]]]; discriminate.
  - exists candidate. split; [exact Hb|].
    pose proof (proj2 (Hc Sample.lot_b) eq_refl) as Eb.
    pose proof (proj2 (Hc Sample.lot_d) eq_refl) as Ed.
    change (Ok [Sample.at_tz Sample.d_2024_03_05]
            = Ok (candidate Sample.lot_a ++ candidate Sample.lot_b
                  ++ candidate Sample.lot_d ++ [])%list) in Hb.
    rewrite Eb, Ed in Hb. simpl in Hb. rewrite app_nil_r in Hb.
    injection Hb as Ea. now rewrite <- Ea.
Defined.


(** At a sample auction: the earlier of the end of the tender period
    and the end of the stand-still of the claim. *)
Lemma next_check_minimum_witness :
  (exists m,
      @next_check_date Sample.imports Sample.now Sample.tendering = Ok (Some m)
      /\ @next_check Sample.imports Sample.now Sample.tendering
         = Ok (Some (isoformat m))
      /\ utc m <= utc (Sample.at_tz Sample.d_2024_03_01)
      /\ utc m <= utc (dt_add (Sample.at_tz Sample.d_2024_02_19) (days 3)))
  /\ @next_check Sample.imports Sample.now (Sample.auction "complete") = Ok None.
Proof.
  split.
  - destruct (@next_check_minimum Sample.imports Sample.now Sample.tendering
                [Sample.at_tz Sample.d_2024_03_01] eq_refl)
      as (_ & _ & Hmin & _).
    destruct Hmin as (m & Hd & Hn & _ & Hle); [discriminate|].
    exists m. split; [exact Hd|]. split; [exact Hn|].
    split; apply Hle; simpl; auto.
  - exact (proj1 (proj2 (@next_check_minimum Sample.imports Sample.now
                           (Sample.auction "complete") [] eq_refl)) eq_refl).
Defined.

(** C4 at the failing input [Sample.claimed] in the zone
    [Sample.seasonal]: the claim is submitted at noon of 29 March, two
    hours ahead of UTC as the zone is then; its stand-still ends after the
    change to summer time, and [next_check] is that end still two hours
    ahead of UTC, where the zone is three hours ahead. *)
Lemma next_check_outside_TZ :
  in_TZ (imports := Sample.seasonal) Sample.d_2024_03_29_noon
  /\ @next_check Sample.seasonal Sample.now Sample.claimed
     = Ok (Some "2024-04-01T12:00:00+02:00")
  /\ (exists m, @next_check_date Sample.seasonal Sample.now Sample.claimed
                = Ok (Some m)
                /\ ~ in_TZ (imports := Sample.seasonal) m
                /\ isoformat (astimezone (@TZ Sample.seasonal) m)
                   = "2024-04-01T13:00:00+03:00").
Proof.
  split; [reflexivity|]. split; [reflexivity|].
  eexists. split; [reflexivity|]. split; [|reflexivity].
  vm_compute. discriminate.
Qed.

(** At sample auctions: the claim of [Sample.lots_awarded] comes on top
    of the candidate of lot [a], and the answered complaint of the award of
    [Sample.answered_award] on top of the end of the tender period. *)
Lemma complaints_stand_still_witness :
  (exists cs,
      @checks Sample.imports Sample.now Sample.lots_awarded = Ok cs
      /\ In (Sample.at_tz Sample.d_2024_03_05) cs
      /\ In (dt_add (Sample.at_tz Sample.d_2024_02_19) (days 3)) cs)
  /\ (exists cs,
        @checks Sample.imports Sample.now Sample.answered_award = Ok cs
        /\ In (Sample.at_tz Sample.d_2024_03_01) cs
        /\ In (dt_add (Sample.at_tz Sample.d_2024_02_20) (days 3)) cs).
Proof.
  split.
  - destruct (@complaints_stand_still Sample.imports Sample.now Sample.lots_awarded
                [Sample.at_tz Sample.d_2024_03_05] eq_refl eq_refl)
      as (cs & Hcs & Hfound & Hclaim & _).
    exists cs. split; [exact Hcs|]. split.
    + apply Hfound. now left.
    + apply (Hclaim (Sample.claim (Sample.at_tz Sample.d_2024_02_19) (Some "b")));
        [now left|reflexivity|reflexivity].
  - destruct (@complaints_stand_still Sample.imports Sample.now Sample.answered_award
                [Sample.at_tz Sample.d_2024_03_01] eq_refl eq_refl)
      as (cs & Hcs & Hfound & _ & Hanswered).
    exists cs. split; [exact Hcs|]. split.
    + apply Hfound. now left.
    + apply (Hanswered (Sample.answered (Sample.at_tz Sample.d_2024_02_20)));
        [now left|reflexivity|reflexivity].
Defined.


(** C9 at sample documents: a data room with a hash is rejected by the
    validators, a notice in PDF passes the validation. *)
Lemma document_validation_witness :
  failed (Document.validator_errors Sample.url_ok Sample.data_room_hashed)
  /\ ~ (rejected_by_validators Sample.url_ok Sample.notice_pdf
        \/ rejected_by_fields Sample.notice_pdf).
Proof.
  split.
  - apply (proj1 (document_validation Sample.url_ok Sample.data_room_hashed
                    (fun _ => ex_intro _ _ eq_refl))).
    left. split; reflexivity.
  - intros H.
    assert (Document.is_virtualDataRoom Sample.notice_pdf = true ->
            exists u, Document.url Sample.notice_pdf = Some u) as Hu
        by discriminate.
    apply (proj1 (proj2 (document_validation Sample.url_ok Sample.notice_pdf Hu)))
      in H.
    destruct H as (errors & He & Hne). injection He as <-. now apply Hne.
Defined.

(** C9 as the specification states it fails: [Sample.notice_text] is a
    notice whose format is [text]; none of the four cases holds and its
    validation fails on the field [format]. *)
Lemma document_validation_counterexample :
  Document.validate Sample.url_ok Sample.notice_text
  = Ok [("format", ValidationError ["String value did not match validation regex."])]
  /\ failed (Document.validate Sample.url_ok Sample.notice_text)
  /\ ~ rejected_as_specified Sample.url_ok Sample.notice_text.
Proof.
  split; [reflexivity|]. split; [eexists; split; [reflexivity|discriminate]|].
  intros [[H _] | [[H _] | [[H _] | [_ H]]]]; discriminate.
Qed.

(** C10 at sample auctions: [Sample.tendering] keeps its tender period,
    [Sample.scheduled], which starts on 5 March, gets one that ends on
    4 March. *)
Lemma auction_tenderPeriod_serialized_witness :
  @auction_tenderPeriod Sample.imports Sample.tendering
  = Ok (Sample.ends_at Sample.d_2024_03_01)
  /\ @auction_tenderPeriod Sample.imports Sample.scheduled
     = Ok (Period.mk None (Some (Sample.at_utc (Sample.d_2024_03_05 - 86400)))).
Proof.
  split.
  - exact (proj1 (@auction_tenderPeriod_serialized Sample.imports Sample.tendering)
                 (Sample.ends_at Sample.d_2024_03_01)
                 (Sample.at_utc Sample.d_2024_03_01) eq_refl eq_refl).
  - refine (proj2 (@auction_tenderPeriod_serialized Sample.imports Sample.scheduled)
                  (Sample.starts_at Sample.d_2024_03_05)
                  (Sample.at_utc Sample.d_2024_03_05) _ eq_refl eq_refl).
    intros p H. discriminate.
Defined.

(** * Further properties *)

Lemma existsb_false_inv {A : Type} (f : A -> bool) (xs : list A) :
  existsb f xs = false -> forall x, In x xs -> f x = false.
Proof.
  intros H x Hx. destruct (f x) eqn:E; [|reflexivity].
  rewrite <- H. symmetry. apply existsb_exists. eauto.
Qed.

Lemma eqb_not_active (s lit : string) :
  String.prefix "active" lit = true ->
  String.prefix "active" s = false ->
  (s =? lit)%string = false.
Proof.
  intros Hl Hs. destruct (String.eqb_spec s lit); [subst; congruence|reflexivity].
Qed.

Section Evaluator.
Context {imports : Imports}.

Lemma next_check_as_date (now : datetime) (a : Auction.t) :
  next_check now a
  = r <- next_check_date now a ;; Ok (option_map isoformat r).
Proof.
  unfold next_check, next_check_date. now destruct (checks now a).
Qed.

(** ** Statuses that are not active *)

(** X1: an auction whose status does not start with [active] has no next
    check: the result is [None], and nothing is raised, whatever its
    periods, lots, awards and complaints are. *)
Theorem next_check_inactive (now : datetime) (a : Auction.t) :
  String.prefix "active" (Auction.status a) = false ->
  next_check now a = Ok None.
Proof.
  intros H.
  unfold next_check, checks, branch_checks, tendering_endDate, complaint_checks.
  rewrite H. cbn [str_in existsb].
  rewrite (eqb_not_active _ "active.tendering" eq_refl H),
    (eqb_not_active _ "active.auction" eq_refl H),
    (eqb_not_active _ "active.awarded" eq_refl H),
    (eqb_not_active _ "active.qualification" eq_refl H).
  destruct (has_lots a); reflexivity.
Qed.

(** ** When next_check raises *)

Lemma standStillEnds_raise_inv (awards : list Award.t) (e : exn) :
  standStillEnds awards = Raise e ->
  e = AttributeError
  /\ exists aw, In aw awards /\ Award.complaintPeriod aw = None.
Proof.
  induction awards as [|aw rest IH]; simpl; [discriminate|].
  destruct (Award.complaintPeriod aw) as [p|] eqn:Ep.
  - destruct (standStillEnds rest) as [ends|e'] eqn:Er; simpl; [discriminate|].
    intros H. injection H as <-. destruct (IH eq_refl) as (He & x & Hx & Hn).
    split; [exact He|]. exists x. split; [now right|exact Hn].
  - intros H. injection H as <-. split; [reflexivity|].
    exists aw. split; [now left|exact Ep].
Qed.

Lemma lots_awarded_checks_raise_inv (a : Auction.t) (lots : list Lot.t) (e : exn) :
  lots_awarded_checks a lots = Raise e ->
  e = AttributeError
  /\ exists aw, In aw (Auction.awards a) /\ Award.complaintPeriod aw = None.
Proof.
  induction lots as [|lot rest IH]; simpl; [discriminate|].
  destruct (negb (Lot.status lot =? "active")%string); [exact IH|].
  destruct (standStillEnds _) as [ends|e'] eqn:Ee; simpl.
  - destruct (lots_awarded_checks a rest) as [more|e'']; simpl; [discriminate|].
    intros H. injection H as <-. now apply IH.
  - intros H. injection H as <-.
    destruct (standStillEnds_raise_inv _ _ Ee) as (He & aw & Haw & Hn).
    split; [exact He|]. exists aw. split; [|exact Hn].
    now apply filter_In in Haw.
Qed.

Lemma next_check_raise_branch (now : datetime) (a : Auction.t) (e : exn) :
  next_check now a = Raise e <-> branch_checks now a = Raise e.
Proof.
  unfold next_check, checks.
  destruct (branch_checks now a); simpl; split; congruence.
Qed.

(** What is raised comes from the complaint period of an award that has
    none. *)
Lemma next_check_raise_inv (now : datetime) (a : Auction.t) (e : exn) :
  next_check now a = Raise e ->
  e = AttributeError
  /\ (Auction.status a = "active.awarded"
      \/ Auction.status a = "active.qualification")
  /\ exists aw, In aw (Auction.awards a) /\ Award.complaintPeriod aw = None.
Proof.
  intros H. apply next_check_raise_branch in H. revert H.
  unfold branch_checks.
  destruct (tendering_endDate a); [discriminate|].
  destruct (if negb (has_lots a) && (Auction.status a =? "active.auction")%string
            then open_startDate (Auction.auctionPeriod a) else None); [discriminate|].
  destruct (has_lots a && (Auction.status a =? "active.auction")%string);
    [discriminate|].
  match goal with |- context [if ?c then awarded_checks _ else _] =>
                    destruct c eqn:Ec end.
  - unfold awarded_checks.
    destruct (standStillEnds (Auction.awards a)) as [ends|e'] eqn:Ee; simpl;
      [discriminate|].
    intros H. injection H as <-.
    destruct (standStillEnds_raise_inv _ _ Ee) as (He & Hex).
    split; [exact He|]. split; [left|exact Hex].
    apply andb_prop in Ec. destruct Ec as [Ec _].
    apply andb_prop in Ec. destruct Ec as [Ec _].
    apply andb_prop in Ec. destruct Ec as [_ Ec].
    now apply String.eqb_eq.
  - match goal with |- context [if ?c then lots_awarded_checks _ _ else _] =>
                      destruct c eqn:Ed end; [|discriminate].
    intros H. destruct (lots_awarded_checks_raise_inv _ _ _ H) as (He & Hex).
    split; [exact He|]. split; [|exact Hex].
    apply andb_prop in Ed. destruct Ed as [Ed _].
    apply andb_prop in Ed. destruct Ed as [_ Ed].
    cbn [str_in existsb] in Ed. rewrite orb_false_r in Ed.
    apply orb_prop in Ed. destruct Ed as [Ed | Ed]; apply String.eqb_eq in Ed; auto.
Qed.

(** X2: [next_check] raises [AttributeError] only for an auction in
    [active.awarded] or [active.qualification] one of whose awards has no
    complaint period. *)
Theorem next_check_AttributeError (now : datetime) (a : Auction.t) :
  next_check now a = Raise AttributeError ->
  (Auction.status a = "active.awarded"
   \/ Auction.status a = "active.qualification")
  /\ exists aw, In aw (Auction.awards a) /\ Award.complaintPeriod aw = None.
Proof.
  intros H. exact (proj2 (next_check_raise_inv now a AttributeError H)).
Qed.

(** X3: without lots, the validator [validate_not_available] having
    accepted them: when [next_check] raises [AttributeError], the auction
    is in [active.awarded], no complaint of the auction or of an award is
    blocking, and an award has no complaint period; and under these
    conditions [next_check] does not return. *)
Theorem missing_complaintPeriod_raises (now : datetime) (a : Auction.t) :
  validate_not_available (Some (Auction.lots a)) = Ok tt ->
  let unguarded :=
    Auction.status a = "active.awarded"
    /\ (forall c, In c (all_complaints a) -> blocking c = false)
    /\ exists aw, In aw (Auction.awards a) /\ Award.complaintPeriod aw = None in
  (next_check now a = Raise AttributeError -> unguarded)
  /\ (unguarded -> forall r, next_check now a <> Ok r).
Proof.
  intros Hv unguarded. subst unguarded.
  assert (Auction.lots a = []) as Hl
      by (destruct (Auction.lots a); [reflexivity|discriminate]).
  split.
  - rewrite next_check_raise_branch.
    unfold branch_checks, has_lots. rewrite Hl.
    destruct (tendering_endDate a); [discriminate|]. cbn [negb andb].
    destruct (if (Auction.status a =? "active.auction")%string
              then open_startDate (Auction.auctionPeriod a) else None);
      [discriminate|].
    destruct (Auction.status a =? "active.awarded")%string eqn:Es;
      [|discriminate].
    destruct (existsb blocking (Auction.complaints a)) eqn:E1; [discriminate|].
    destruct (existsb blocking (flat_map Award.complaints (Auction.awards a)))
      eqn:E2; [discriminate|].
    cbn [negb andb]. unfold awarded_checks.
    destruct (standStillEnds (Auction.awards a)) as [ends|e'] eqn:Ee; simpl;
      [discriminate|].
    intros _. split; [now apply String.eqb_eq|]. split.
    + intros c Hc. unfold all_complaints in Hc. apply in_app_or in Hc.
      destruct Hc as [Hc | Hc];
        [exact (existsb_false_inv _ _ E1 c Hc)|exact (existsb_false_inv _ _ E2 c Hc)].
    + exact (proj2 (standStillEnds_raise_inv _ _ Ee)).
  - intros (Hs & Hb & aw & Haw & Hn) r.
    unfold next_check, checks.
    rewrite (branch_checks_awarded now a Hl Hs Hb). unfold awarded_checks.
    rewrite (standStillEnds_raises _ aw Haw Hn). discriminate.
Qed.

(** X4: without lots and in [active.awarded], one blocking complaint, of
    the auction or of an award, leaves no candidate of the awards: the
    complaint period end dates are not read, nothing is raised, and
    [next_check] is the earliest stand-still candidate of the complaints. *)
Theorem blocking_complaint_suppresses (now : datetime) (a : Auction.t)
        (c : Complaint.t) :
  Auction.lots a = [] ->
  Auction.status a = "active.awarded" ->
  In c (all_complaints a) ->
  blocking c = true ->
  branch_checks now a = Ok []
  /\ next_check now a
     = Ok (option_map isoformat (min_checks (complaint_checks a))).
Proof.
  intros Hl Hs Hc Hb.
  assert (branch_checks now a = Ok []) as Hbr.
  { unfold branch_checks, tendering_endDate, has_lots. rewrite Hl, Hs.
    cbn [negb andb String.eqb Ascii.eqb Bool.eqb str_in existsb].
    unfold all_complaints in Hc. apply in_app_or in Hc.
    destruct Hc as [Hc | Hc].
    - assert (existsb blocking (Auction.complaints a) = true) as ->
          by (apply existsb_exists; eauto).
      reflexivity.
    - assert (existsb blocking (flat_map Award.complaints (Auction.awards a)) = true)
        as -> by (apply existsb_exists; eauto).
      now destruct (existsb blocking (Auction.complaints a)). }
  split; [exact Hbr|]. unfold next_check, checks. now rewrite Hbr.
Qed.

(** ** Deadlines lie ahead *)

Lemma auction_deadline_ahead (now : datetime) (n : Z) (s d : datetime) :
  In d (auction_deadline now n s) -> utc now < utc d.
Proof.
  unfold auction_deadline, dt_ltb.
  destruct (Z.ltb_spec (utc now) (utc s)).
  - intros [<- | []]. assumption.
  - destruct (Z.ltb_spec (utc now)
                (utc (astimezone TZ (calc_auction_end_time n s)))).
    + intros [<- | []]. assumption.
    + intros [].
Qed.

Lemma lots_auction_checks_ahead (now : datetime) (lots : list Lot.t) (d : datetime) :
  In d (lots_auction_checks now lots) -> utc now < utc d.
Proof.
  induction lots as [|lot rest IH]; simpl; [tauto|].
  destruct (negb (Lot.status lot =? "active")%string); [exact IH|].
  destruct (open_startDate (Lot.auctionPeriod lot)); [|exact IH].
  intros H. apply in_app_or in H. destruct H as [H | H]; [|now apply IH].
  now apply auction_deadline_ahead in H.
Qed.

Lemma branch_checks_auction_ahead (now : datetime) (a : Auction.t) :
  Auction.status a = "active.auction" ->
  exists found, branch_checks now a = Ok found
                /\ forall d, In d found -> utc now < utc d.
Proof.
  intros Hs. unfold branch_checks, tendering_endDate. rewrite Hs.
  cbn [String.eqb Ascii.eqb Bool.eqb str_in existsb].
  destruct (has_lots a); cbn [negb andb orb].
  - eexists. split; [reflexivity|]. intros x. apply lots_auction_checks_ahead.
  - destruct (open_startDate (Auction.auctionPeriod a)).
    + eexists. split; [reflexivity|]. intros x. apply auction_deadline_ahead.
    + eexists. split; [reflexivity|]. intros x [].
Qed.

(** X5: in [active.auction], with or without lots, when no complaint is a
    claim with its submission date or answered with its answer date, a date
    that [next_check] returns is strictly after [now]. *)
Theorem next_check_auction_ahead (now : datetime) (a : Auction.t) (m : datetime) :
  Auction.status a = "active.auction" ->
  (forall c, In c (all_complaints a) -> stand_still_running c = false) ->
  next_check_date now a = Ok (Some m) ->
  utc now < utc m.
Proof.
  intros Hs Hq.
  destruct (branch_checks_auction_ahead now a Hs) as (found & Hbr & Hahead).
  unfold next_check_date, checks. rewrite Hbr, (complaint_checks_quiet a Hq).
  simpl. rewrite app_nil_r.
  destruct found as [|c rest]; simpl; [discriminate|].
  intros Hm. injection Hm as <-. apply Hahead, min_from_In.
Qed.

(** X6: in [active.tendering] with the end of the tender period set, what
    [next_check] returns is a date, not [None], and that date is not later
    than the end of the tender period; whatever the lots, the awards and
    the complaints are. *)
Theorem next_check_tendering_bound (now : datetime) (a : Auction.t)
        (p : Period.t) (d : datetime) (r : option datetime) :
  Auction.status a = "active.tendering" ->
  Auction.tenderPeriod a = Some p ->
  Period.endDate p = Some d ->
  next_check_date now a = Ok r ->
  exists m, r = Some m /\ utc m <= utc d.
Proof.
  intros Hs Hp Hd.
  pose proof (branch_checks_tendering now a p d Hs Hp Hd) as Hbr.
  unfold next_check_date, checks. rewrite Hbr. simpl.
  intros H. injection H as <-.
  exists (min_from (astimezone TZ d) (complaint_checks a)).
  split; [reflexivity|].
  apply (min_from_start (complaint_checks a) (astimezone TZ d)).
Qed.

End Evaluator.

(** ** The tender period: validation and serialization *)

Section TenderPeriod.
Context {imports : Imports}.

Lemma auction_tenderPeriod_returns (a : Auction.t) :
  (exists p, auction_tenderPeriod a = Ok p)
  <-> (exists p e, Auction.tenderPeriod a = Some p /\ Period.endDate p = Some e)
      \/ (exists ap s, Auction.auctionPeriod a = Some ap
                       /\ Period.startDate ap = Some s).
Proof.
  unfold auction_tenderPeriod.
  destruct (Auction.tenderPeriod a) as [p|].
  - destruct (Period.endDate p) as [e|] eqn:Ee; simpl.
    + split; [intros _; left; now exists p, e|intros _; now exists p].
    + destruct (Auction.auctionPeriod a) as [ap|];
        [destruct (Period.startDate ap) as [s|] eqn:Es|]; split.
      * intros _. right. now exists ap, s.
      * intros _. eauto.
      * intros [q Hq]. discriminate.
      * intros [(q & e & Hq & He) | (q & s & Hq & Hs)]; [|congruence].
        injection Hq as <-. congruence.
      * intros [q Hq]. discriminate.
      * intros [(q & e & Hq & He) | (q & s & Hq & Hs)]; [|discriminate].
        injection Hq as <-. congruence.
  - destruct (Auction.auctionPeriod a) as [ap|];
      [destruct (Period.startDate ap) as [s|] eqn:Es|]; split.
    + intros _. right. now exists ap, s.
    + intros _. eauto.
    + intros [q Hq]. discriminate.
    + intros [(q & e & Hq & He) | (q & s & Hq & Hs)]; [discriminate|congruence].
    + intros [q Hq]. discriminate.
    + intros [(q & e & Hq & He) | (q & s & Hq & Hs)]; discriminate.
Qed.

Lemma validate_tenderPeriod_accepts (a : Auction.t) (entry : data_entry) :
  entry_of a entry ->
  (validate_tenderPeriod entry (Auction.tenderPeriod a) = Ok tt
   <-> (exists p e, Auction.tenderPeriod a = Some p /\ Period.endDate p = Some e)
       \/ (exists ap s, Auction.auctionPeriod a = Some ap
                        /\ Period.startDate ap = Some s)).
Proof.
  unfold entry_of, validate_tenderPeriod. intros He.
  destruct (Auction.tenderPeriod a) as [p|];
    [destruct (Period.endDate p) as [e|] eqn:Ee|]; simpl.
  - split; [intros _; left; now exists p, e|reflexivity].
  - destruct entry as [[ap|]|]; [subst; simpl| |];
      [destruct (Period.startDate ap) as [s|] eqn:Es; simpl| |]; split;
      try discriminate; try reflexivity.
    + intros _. right. exists ap, s. now split.
    + intros [(q & e & Hq & Hq') | (q & s & Hq & Hs)]; [|congruence].
      injection Hq as <-. congruence.
    + intros [(q & e & Hq & Hq') | (q & s & Hq & Hs)]; [|congruence].
      injection Hq as <-. congruence.
    + intros [(q & e & Hq & Hq') | (q & s & Hq & Hs)]; [|congruence].
      injection Hq as <-. congruence.
  - destruct entry as [[ap|]|]; [subst; simpl| |];
      [destruct (Period.startDate ap) as [s|] eqn:Es; simpl| |]; split;
      try discriminate; try reflexivity.
    + intros _. right. exists ap, s. now split.
    + intros [(q & e & Hq & Hq') | (q & s & Hq & Hs)]; congruence.
    + intros [(q & e & Hq & Hq') | (q & s & Hq & Hs)]; congruence.
    + intros [(q & e & Hq & Hq') | (q & s & Hq & Hs)]; congruence.
Qed.

(** X7: [validate_tenderPeriod] accepts an auction exactly when its
    serialized [tenderPeriod] can be computed: with the auction period of
    the auction at ['auctionPeriod'] in [data], the validator returns if
    and only if [auction_tenderPeriod] returns a period. *)
Theorem tenderPeriod_validated_iff_serialized (a : Auction.t) (entry : data_entry) :
  entry_of a entry ->
  (validate_tenderPeriod entry (Auction.tenderPeriod a) = Ok tt
   <-> exists p, auction_tenderPeriod a = Ok p).
Proof.
  intros He. rewrite (validate_tenderPeriod_accepts a entry He).
  symmetry. apply auction_tenderPeriod_returns.
Qed.

(** X8: a serialized [tenderPeriod] always has its end date; it is the
    stored tender period, or it has no start date. *)
Theorem serialized_tenderPeriod_ends (a : Auction.t) (p : Period.t) :
  auction_tenderPeriod a = Ok p ->
  (exists e, Period.endDate p = Some e)
  /\ (Auction.tenderPeriod a = Some p \/ Period.startDate p = None).
Proof.
  unfold auction_tenderPeriod.
  destruct (Auction.tenderPeriod a) as [q|];
    [destruct (Period.endDate q) as [e|] eqn:Ee|]; simpl.
  - intros H. injection H as <-. split; [now exists e|now left].
  - destruct (Auction.auctionPeriod a) as [ap|]; [|discriminate].
    destruct (Period.startDate ap); [|discriminate].
    intros H. injection H as <-. split; [eexists; reflexivity|now right].
  - destruct (Auction.auctionPeriod a) as [ap|]; [|discriminate].
    destruct (Period.startDate ap); [|discriminate].
    intros H. injection H as <-. split; [eexists; reflexivity|now right].
Qed.

End TenderPeriod.

(** ** initialize *)

Section Initialize.
Context {imports : Imports}.

(** X9: [initialize] on an object that has a tender period returns, and
    afterwards the enquiry period and the tender period are the same
    period, from [now] to the end of the tender period as it was; the date
    of the auction and of each of its lots is [now]; status, auction
    period, lots, awards and complaints are as before. *)
Theorem initialize_stamps (now : datetime) (self : Instance.t) (tp : Period.t) :
  Auction.tenderPeriod (Instance.auction self) = Some tp ->
  let a := Instance.auction self in
  let after := fst (initialize now self) in
  let stamped := Some (Period.mk (Some now) (Period.endDate tp)) in
  snd (initialize now self) = Ok tt
  /\ Auction.tenderPeriod (Instance.auction after) = stamped
  /\ Auction.enquiryPeriod (Instance.auction after) = stamped
  /\ Instance.date after = Some now
  /\ List.length (Instance.lot_dates after) = List.length (Auction.lots a)
  /\ (forall d, In d (Instance.lot_dates after) -> d = Some now)
  /\ Instance.auction after
     = with_periods a stamped stamped.
Proof.
  intros Htp a after stamped. subst a after stamped.
  unfold initialize. rewrite Htp. simpl.
  repeat split.
  - apply length_map.
  - intros d Hd. apply in_map_iff in Hd. now destruct Hd as (x & <- & _).
Qed.

(** X10: [initialize] on an object without a tender period raises
    [AttributeError], whatever else the object holds; the call is not
    undone: an object that had no enquiry period is left with an empty
    one, and nothing else is changed. *)
Theorem initialize_without_tenderPeriod (now : datetime) (self : Instance.t) :
  Auction.tenderPeriod (Instance.auction self) = None ->
  let after := fst (initialize now self) in
  snd (initialize now self) = Raise AttributeError
  /\ Instance.date after = Instance.date self
  /\ Instance.lot_dates after = Instance.lot_dates self
  /\ Auction.tenderPeriod (Instance.auction after) = None
  /\ (Auction.enquiryPeriod (Instance.auction self) = None ->
      Instance.auction after
      = with_periods (Instance.auction self) (Some (Period.mk None None)) None)
  /\ (Auction.enquiryPeriod (Instance.auction self) <> None -> after = self).
Proof.
  intros Htp after. subst after. unfold initialize. rewrite Htp. simpl.
  repeat split.
  - intros He. now rewrite He.
  - intros He. destruct self as [a d ld]. simpl in *.
    destruct a as [aw co en te au pm st lo nb]. simpl in *. subst te.
    destruct en as [e|]; [reflexivity|congruence].
Qed.

(** X11: an auction made with the start of its auction period and without
    a tender period is accepted by [validate_tenderPeriod] and has a
    serialized [tenderPeriod], and [initialize] raises on it. *)
Theorem validated_without_tenderPeriod (now : datetime) (self : Instance.t)
        (ap : Period.t) (s : datetime) :
  Auction.tenderPeriod (Instance.auction self) = None ->
  Auction.auctionPeriod (Instance.auction self) = Some ap ->
  Period.startDate ap = Some s ->
  validate_tenderPeriod (Some (Some ap)) None = Ok tt
  /\ auction_tenderPeriod (Instance.auction self)
     = Ok (Period.mk None
             (Some (calculate_business_date s (- days 1) (Instance.auction self))))
  /\ snd (initialize now self) = Raise AttributeError.
Proof.
  intros Htp Hap Hs. unfold validate_tenderPeriod, auction_tenderPeriod, initialize.
  rewrite Htp, Hap, Hs. repeat split.
Qed.

(** X12: the last [initialize] decides: the object after two calls, and
    how the second ended, are those of the second call alone. *)
Theorem initialize_again (now1 now2 : datetime) (self : Instance.t) :
  initialize now2 (fst (initialize now1 self)) = initialize now2 self.
Proof.
  unfold initialize.
  destruct self as [a d ld]. simpl.
  destruct (Auction.tenderPeriod a) as [tp|]; simpl.
  - reflexivity.
  - destruct (Auction.enquiryPeriod a); reflexivity.
Qed.

Lemma lots_awarded_checks_reads (a b : Auction.t) (lots : list Lot.t) :
  Auction.awards a = Auction.awards b ->
  Auction.complaints a = Auction.complaints b ->
  lots_awarded_checks a lots = lots_awarded_checks b lots.
Proof.
  intros Haw Hco. induction lots as [|lot rest IH]; simpl; [reflexivity|].
  now rewrite Haw, Hco, IH.
Qed.

Lemma branch_checks_reads (at_ : datetime) (a : Auction.t)
      (enquiryPeriod_ : option Period.t) (tp tp' : option Period.t) :
  Auction.tenderPeriod a = tp ->
  match tp, tp' with
  | Some p, Some p' => Period.endDate p = Period.endDate p'
  | None, None => True
  | _, _ => False
  end ->
  branch_checks at_ (with_periods a enquiryPeriod_ tp') = branch_checks at_ a.
Proof.
  intros Htp Hend. unfold branch_checks, tendering_endDate, has_lots.
  rewrite (lots_awarded_checks_reads (with_periods a enquiryPeriod_ tp') a)
    by reflexivity.
  simpl. rewrite Htp.
  destruct tp as [p|], tp' as [p'|]; try contradiction;
    [now rewrite Hend|reflexivity].
Qed.

Lemma complaint_checks_reads (a b : Auction.t) :
  Auction.status a = Auction.status b ->
  Auction.complaints a = Auction.complaints b ->
  Auction.awards a = Auction.awards b ->
  (forall d, calculate_business_date d COMPLAINT_STAND_STILL_TIME a
             = calculate_business_date d COMPLAINT_STAND_STILL_TIME b) ->
  complaint_checks a = complaint_checks b.
Proof.
  intros Hs Hc Haw Hcbd. unfold complaint_checks. rewrite Hs, Hc, Haw.
  assert (forall c, complaint_check a c = complaint_check b c) as Hcc.
  { intros c. unfold complaint_check.
    destruct (Complaint.status c =? "claim")%string;
      destruct (Complaint.status c =? "answered")%string;
      destruct (Complaint.dateSubmitted c);
      destruct (Complaint.dateAnswered c); now rewrite ?Hcbd. }
  destruct (String.prefix "active" (Auction.status b)); [|reflexivity].
  f_equal.
  - apply flat_map_ext. exact Hcc.
  - apply flat_map_ext. intros aw. apply flat_map_ext. exact Hcc.
Qed.

(** X13: [initialize] leaves the candidates of the periods as they are:
    the branch of [next_check] that is taken, and what it gives, are the
    same before and after the call, whether it returned or raised.  Where
    [calculate_business_date] gives the same dates for the object before
    and after, [next_check] is the same as well. *)
Theorem initialize_keeps_candidates (now at_ : datetime) (self : Instance.t) :
  let before := Instance.auction self in
  let after := Instance.auction (fst (initialize now self)) in
  branch_checks at_ after = branch_checks at_ before
  /\ ((forall d, calculate_business_date d COMPLAINT_STAND_STILL_TIME after
                 = calculate_business_date d COMPLAINT_STAND_STILL_TIME before) ->
      next_check at_ after = next_check at_ before).
Proof.
  intros before after.
  assert (branch_checks at_ after = branch_checks at_ before) as Hbr.
  { subst before after. unfold initialize. destruct self as [a d ld]. simpl.
    destruct (Auction.tenderPeriod a) as [tp|] eqn:Htp; simpl.
    - now apply (branch_checks_reads at_ a _ (Some tp)).
    - now apply (branch_checks_reads at_ a _ None). }
  split; [exact Hbr|]. intros Hcbd.
  unfold next_check, checks. rewrite Hbr.
  rewrite (complaint_checks_reads after before); auto;
    subst before after; unfold initialize;
    destruct (Auction.tenderPeriod (Instance.auction self)); reflexivity.
Qed.

End Initialize.

(** ** The format of a document *)

Lemma skip_app (p : ascii -> bool) (h r : string) :
  all_chars p h = true -> Document.skip p (h ++ r) = Document.skip p r.
Proof.
  induction h as [|c h IH]; simpl; [reflexivity|].
  intros H. apply andb_prop in H. destruct H as [Hc Hh].
  rewrite Hc. now apply IH.
Qed.

Lemma skip_split (p : ascii -> bool) (s : string) :
  exists h, s = (h ++ Document.skip p s)%string /\ all_chars p h = true.
Proof.
  induction s as [|c s IH]; simpl.
  - now exists "".
  - destruct (p c) eqn:Ec.
    + destruct IH as (h & Hs & Hh). exists (String c h). simpl.
      rewrite Ec, Hh. split; [now rewrite <- Hs|reflexivity].
    + now exists "".
Qed.

Lemma skip_stops (p : ascii -> bool) (c : ascii) (r : string) :
  p c = false -> Document.skip p (String c r) = String c r.
Proof.
  intros H. simpl. now rewrite H.
Qed.

Lemma at_end_tail (s : string) :
  Document.at_end s = true <-> s = "" \/ s = String (ascii_of_nat 10) "".
Proof.
  destruct s as [|c [|c' s]]; simpl; split; intros H; auto; try discriminate.
  - right. apply Ascii.eqb_eq in H. now subst.
  - destruct H as [H | H]; [discriminate|]. injection H as ->. reflexivity.
  - destruct H as [H | H]; discriminate.
Qed.

Lemma format_regex_mime (s : string) :
  Document.format_regex s = true <-> mime_shaped s.
Proof.
  unfold mime_shaped. split.
  - destruct s as [|c rest]; simpl; [discriminate|].
    intros H. apply andb_prop in H. destruct H as [Hc H].
    destruct (skip_split Document.head_char rest) as (h & Hrest & Hh).
    destruct (Document.skip Document.head_char rest) as [|slash [|c2 rest2]];
      try discriminate.
    apply andb_prop in H. destruct H as [H Hend].
    apply andb_prop in H. destruct H as [Hslash Hc2].
    apply Ascii.eqb_eq in Hslash. subst slash.
    destruct (skip_split Document.tail_char rest2) as (t & Hrest2 & Ht).
    exists (String c h), (String c2 t), (Document.skip Document.tail_char rest2).
    repeat split; try discriminate.
    + simpl. rewrite Hrest at 1. simpl. now rewrite Hrest2 at 1.
    + simpl. now rewrite Hc, Hh.
    + simpl. now rewrite Hc2, Ht.
    + now apply at_end_tail.
  - intros (type & subtype & tail & -> & Hty & Hsub & Hh & Ht & Htail).
    destruct type as [|c h]; [congruence|].
    destruct subtype as [|c2 t]; [congruence|].
    simpl in Hh, Ht. apply andb_prop in Hh. destruct Hh as [Hc Hh].
    apply andb_prop in Ht. destruct Ht as [Hc2 Ht].
    simpl. rewrite Hc. simpl.
    rewrite (skip_app _ h _ Hh), skip_stops by reflexivity.
    rewrite Hc2. simpl. rewrite (skip_app _ t _ Ht).
    destruct Htail as [-> | ->]; reflexivity.
Qed.

(** X14: the format of a document is accepted by its regular expression
    exactly when it is a non-empty type of letters, digits, [_] and [-], a
    slash, a non-empty subtype of letters, digits, [_], [-], [.] and [+],
    and then nothing or one newline. *)
Theorem format_regex_shape (s : string) :
  Document.format_regex s = true <-> mime_shaped s.
Proof.
  exact (format_regex_mime s).
Qed.

Lemma collect_passed (field : string) (r : result unit)
      (others : result (list (string * exn))) :
  Document.collect field r others = Ok [] -> r = Ok tt /\ others = Ok [].
Proof.
  destruct r as [[]|e]; simpl; [now split|].
  destruct e; try discriminate. destruct others; discriminate.
Qed.

(** X15: a document that passes the validation of the class has, when it
    is not a [virtualDataRoom], a format of the shape above; and when it is
    a [virtualDataRoom], no format at all, no hash but possibly an empty
    one, and a url that passes the URL validation. *)
Theorem validated_document (URLType_validate : string -> bool)
        (d : Document.t) :
  Document.validate URLType_validate d = Ok [] ->
  (Document.is_virtualDataRoom d = false ->
   exists f, Document.format d = Some f /\ mime_shaped f)
  /\ (Document.is_virtualDataRoom d = true ->
      Document.format d = None
      /\ (Document.hash d = None \/ Document.hash d = Some "")
      /\ exists u, Document.url d = Some u /\ URLType_validate u = true).
Proof.
  unfold Document.validate, Document.validator_errors. intros H.
  apply collect_passed in H. destruct H as (Hf & H).
  apply collect_passed in H. destruct H as (_ & H).
  apply collect_passed in H. destruct H as (Hh & H).
  apply collect_passed in H. destruct H as (Hv & H).
  apply collect_passed in H. destruct H as (Hu & _).
  unfold Document.validate_hash in Hh. unfold Document.validate_format in Hv.
  unfold Document.validate_url in Hu. unfold Document.field_format in Hf.
  split; intros Hd; rewrite Hd in *; simpl in *.
  - destruct (Document.format d) as [f|]; simpl in Hv; [|discriminate].
    exists f. split; [reflexivity|]. apply format_regex_mime.
    destruct (Document.format_regex f); [reflexivity|discriminate].
  - split; [|split].
    + destruct (Document.format d) as [f|]; [|reflexivity]. simpl in Hv.
      destruct (String.eqb_spec f ""); [subst f; discriminate|discriminate].
    + destruct (Document.hash d) as [h|]; [|now left]. simpl in Hh.
      destruct (String.eqb_spec h ""); [subst; now right|discriminate].
    + destruct (Document.url d) as [u|]; [|discriminate]. exists u.
      split; [reflexivity|].
      destruct (URLType_validate u); [reflexivity|discriminate].
Qed.

(** ** The time zone of the result *)

Section Zone.
Context {imports : Imports}.

Lemma complaint_checks_in (a : Auction.t) (x : datetime) :
  In x (complaint_checks a) ->
  exists c d, In c (all_complaints a)
              /\ (Complaint.dateSubmitted c = Some d
                  \/ Complaint.dateAnswered c = Some d)
              /\ x = calculate_business_date d COMPLAINT_STAND_STILL_TIME a.
Proof.
  assert (forall c, In x (complaint_check a c) ->
                    exists d, (Complaint.dateSubmitted c = Some d
                               \/ Complaint.dateAnswered c = Some d)
                              /\ x = calculate_business_date
                                       d COMPLAINT_STAND_STILL_TIME a)
    as Hc.
  { intros c. unfold complaint_check.
    destruct (Complaint.status c =? "claim")%string,
             (Complaint.dateSubmitted c) as [d|];
      try (intros [<- | []]; exists d; now auto).
    all: destruct (Complaint.status c =? "answered")%string,
                  (Complaint.dateAnswered c) as [d'|];
      try (intros [<- | []]; exists d'; now auto).
    all: intros []. }
  unfold complaint_checks, all_complaints.
  destruct (String.prefix "active" (Auction.status a)); [|intros []].
  intros H. apply in_app_or in H. destruct H as [H | H].
  - apply in_flat_map in H. destruct H as (c & Hin & H).
    destruct (Hc c H) as (d & Hd & Hx). exists c, d.
    split; [apply in_or_app; now left|now split].
  - apply in_flat_map in H. destruct H as (aw & Haw & H).
    apply in_flat_map in H. destruct H as (c & Hin & H).
    destruct (Hc c H) as (d & Hd & Hx). exists c, d.
    split; [|now split]. apply in_or_app. right. apply in_flat_map. eauto.
Qed.

(** X16: where [calculate_business_date] gives in [TZ] the dates it
    computes from the submission and answer dates of the complaints of
    this auction, every date [next_check] returns is in [TZ], whatever the
    zones of the stored periods are. *)
Theorem next_check_in_TZ (now : datetime) (a : Auction.t) (m : datetime) :
  (forall c d, In c (all_complaints a) ->
               Complaint.dateSubmitted c = Some d
               \/ Complaint.dateAnswered c = Some d ->
               in_TZ (calculate_business_date d COMPLAINT_STAND_STILL_TIME a)) ->
  next_check_date now a = Ok (Some m) ->
  in_TZ m.
Proof.
  intros Hcbd. unfold next_check_date, checks.
  destruct (branch_checks now a) as [found|e] eqn:Hbr; simpl; [|discriminate].
  destruct (found ++ complaint_checks a)%list as [|c rest] eqn:Ecs; simpl;
    [discriminate|].
  intros H. injection H as <-.
  pose proof (min_from_In rest c) as Hin. rewrite <- Ecs in Hin.
  apply in_app_or in Hin. destruct Hin as [Hin | Hin].
  - exact (branch_checks_in_TZ now a found _ Hbr Hin).
  - apply complaint_checks_in in Hin. destruct Hin as (x & d & Hx & Hd & ->).
    exact (Hcbd x d Hx Hd).
Qed.

End Zone.

(** ** The clock *)

Section Clock.
Context {imports : Imports}.

(** X17: outside [active.auction] the clock is not read: [next_check] is
    the same at any two moments. *)
Theorem next_check_without_clock (now1 now2 : datetime) (a : Auction.t) :
  Auction.status a <> "active.auction" ->
  next_check now1 a = next_check now2 a.
Proof.
  intros Hs. apply String.eqb_neq in Hs.
  unfold next_check, checks, branch_checks. rewrite Hs, !andb_false_r.
  reflexivity.
Qed.

End Clock.

(** ** The further properties at the samples *)

(** X17 at [Sample.tendering]. *)
Lemma next_check_without_clock_witness :
  @next_check Sample.imports Sample.now Sample.tendering
  = @next_check Sample.imports Cases.later Sample.tendering.
Proof.
  apply (@next_check_without_clock Sample.imports Sample.now Cases.later
           Sample.tendering).
  discriminate.
Defined.


(** X1 at [Cases.cancelled], which has lots, a claim and an award without a
    complaint period. *)
Lemma next_check_inactive_witness :
  @next_check Sample.imports Sample.now Cases.cancelled = Ok None.
Proof.
  exact (@next_check_inactive Sample.imports Sample.now Cases.cancelled eq_refl).
Defined.

(** X2 at [Sample.lots_awarded_no_period]. *)
Lemma next_check_AttributeError_witness :
  (Auction.status Sample.lots_awarded_no_period = "active.awarded"
   \/ Auction.status Sample.lots_awarded_no_period = "active.qualification")
  /\ exists aw, In aw (Auction.awards Sample.lots_awarded_no_period)
                /\ Award.complaintPeriod aw = None.
Proof.
  exact (@next_check_AttributeError Sample.imports Sample.now
           Sample.lots_awarded_no_period eq_refl).
Defined.

(** X3 at [Sample.awarded_no_period]. *)
Lemma missing_complaintPeriod_raises_witness :
  Auction.status Sample.awarded_no_period = "active.awarded"
  /\ @next_check Sample.imports Sample.now Sample.awarded_no_period <> Ok None.
Proof.
  destruct (@missing_complaintPeriod_raises Sample.imports Sample.now
              Sample.awarded_no_period eq_refl) as (Hconditions & Hraises).
  split.
  - exact (proj1 (Hconditions eq_refl)).
  - apply Hraises, Hconditions. reflexivity.
Defined.

(** X4 at [Cases.awarded_blocked]: the pending complaint of the first
    award keeps the second award from being read. *)
Lemma blocking_complaint_suppresses_witness :
  @branch_checks Sample.imports Sample.now Cases.awarded_blocked = Ok []
  /\ @next_check Sample.imports Sample.now Cases.awarded_blocked = Ok None.
Proof.
  exact (@blocking_complaint_suppresses Sample.imports Sample.now
           Cases.awarded_blocked Cases.pending eq_refl eq_refl
           (or_introl eq_refl) eq_refl).
Defined.

(** X5 at [Sample.four_lots_quiet], whose next check is the start of
    lot [b]. *)
Lemma next_check_auction_ahead_witness :
  utc Sample.now < utc (Sample.at_tz Sample.d_2024_03_01).
Proof.
  apply (@next_check_auction_ahead Sample.imports Sample.now Sample.four_lots_quiet).
  - reflexivity.
  - intros c H. destruct H.
  - reflexivity.
Defined.

(** X6 at [Sample.tendering], whose next check is the end of the stand-still
    of its claim. *)
Lemma next_check_tendering_bound_witness :
  exists m, Some (dt_add (Sample.at_tz Sample.d_2024_02_19) (days 3)) = Some m
            /\ utc m <= utc (Sample.at_utc Sample.d_2024_03_01).
Proof.
  exact (@next_check_tendering_bound Sample.imports Sample.now Sample.tendering
           (Sample.ends_at Sample.d_2024_03_01)
           (Sample.at_utc Sample.d_2024_03_01) _ eq_refl eq_refl eq_refl eq_refl).
Defined.

(** X7 at [Sample.scheduled]. *)
Lemma tenderPeriod_validated_iff_serialized_witness :
  validate_tenderPeriod (Some (Some (Sample.starts_at Sample.d_2024_03_05))) None
  = Ok tt
  <-> exists p, @auction_tenderPeriod Sample.imports Sample.scheduled = Ok p.
Proof.
  exact (@tenderPeriod_validated_iff_serialized Sample.imports Sample.scheduled
           (Some (Some (Sample.starts_at Sample.d_2024_03_05))) eq_refl).
Defined.

(** X8 at [Sample.scheduled]. *)
Lemma serialized_tenderPeriod_ends_witness :
  (exists e,
      Period.endDate
        (Period.mk None (Some (Sample.at_utc (Sample.d_2024_03_05 - 86400))))
      = Some e)
  /\ (Auction.tenderPeriod Sample.scheduled
      = Some (Period.mk None (Some (Sample.at_utc (Sample.d_2024_03_05 - 86400))))
      \/ Period.startDate
           (Period.mk None (Some (Sample.at_utc (Sample.d_2024_03_05 - 86400))))
         = None).
Proof.
  exact (@serialized_tenderPeriod_ends Sample.imports Sample.scheduled
           (Period.mk None (Some (Sample.at_utc (Sample.d_2024_03_05 - 86400))))
           eq_refl).
Defined.

(** X9 at [Cases.with_tenderPeriod]. *)
Lemma initialize_stamps_witness :
  snd (initialize Sample.now Cases.with_tenderPeriod) = Ok tt
  /\ Auction.enquiryPeriod
       (Instance.auction (fst (initialize Sample.now Cases.with_tenderPeriod)))
     = Some (Period.mk (Some Sample.now)
                       (Some (Sample.at_utc Sample.d_2024_03_01)))
  /\ Instance.lot_dates (fst (initialize Sample.now Cases.with_tenderPeriod))
     = [Some Sample.now; Some Sample.now].
Proof.
  destruct (initialize_stamps Sample.now Cases.with_tenderPeriod
              (Sample.ends_at Sample.d_2024_03_01) eq_refl)
    as (Hok & _ & Henq & _).
  split; [exact Hok|]. split; [exact Henq|reflexivity].
Defined.

(** X10 at [Cases.with_auctionPeriod], which has no enquiry period. *)
Lemma initialize_without_tenderPeriod_witness :
  snd (initialize Sample.now Cases.with_auctionPeriod) = Raise AttributeError
  /\ Auction.enquiryPeriod
       (Instance.auction (fst (initialize Sample.now Cases.with_auctionPeriod)))
     = Some (Period.mk None None).
Proof.
  destruct (initialize_without_tenderPeriod Sample.now Cases.with_auctionPeriod
              eq_refl) as (Hraise & _ & _ & _ & Henq & _).
  split; [exact Hraise|]. now rewrite (Henq eq_refl).
Defined.

(** X11 at [Cases.with_auctionPeriod]. *)
Lemma validated_without_tenderPeriod_witness :
  validate_tenderPeriod (Some (Some (Sample.starts_at Sample.d_2024_03_05))) None
  = Ok tt
  /\ @auction_tenderPeriod Sample.imports Sample.scheduled
     = Ok (Period.mk None (Some (Sample.at_utc (Sample.d_2024_03_05 - 86400))))
  /\ snd (initialize Sample.now Cases.with_auctionPeriod) = Raise AttributeError.
Proof.
  exact (@validated_without_tenderPeriod Sample.imports Sample.now
           Cases.with_auctionPeriod (Sample.starts_at Sample.d_2024_03_05)
           (Sample.at_utc Sample.d_2024_03_05) eq_refl eq_refl eq_refl).
Defined.

(** X13 at [Cases.with_tenderPeriod]. *)
Lemma initialize_keeps_candidates_witness :
  @next_check Sample.imports Cases.later
    (Instance.auction (fst (initialize Sample.now Cases.with_tenderPeriod)))
  = @next_check Sample.imports Cases.later (Instance.auction Cases.with_tenderPeriod).
Proof.
  apply (proj2 (@initialize_keeps_candidates Sample.imports Sample.now Cases.later
                  Cases.with_tenderPeriod)).
  intros d. reflexivity.
Defined.

(** X14 at a format with a dot and a plus. *)
Lemma format_regex_shape_witness :
  mime_shaped "application/vnd.ms-excel+xml".
Proof.
  exact (proj1 (format_regex_shape "application/vnd.ms-excel+xml") eq_refl).
Defined.

(** X15 at [Sample.notice_pdf] and at [Cases.data_room]. *)
Lemma validated_document_witness :
  (exists f, Document.format Sample.notice_pdf = Some f /\ mime_shaped f)
  /\ Document.format Cases.data_room = None.
Proof.
  split.
  - exact (proj1 (validated_document Sample.url_ok Sample.notice_pdf eq_refl)
                 eq_refl).
  - exact (proj1 (proj2 (validated_document Sample.url_ok Cases.data_room eq_refl)
                        eq_refl)).
Defined.

(** X16 at [Sample.tendering], whose claim was submitted in the zone. *)
Lemma next_check_in_TZ_witness :
  in_TZ (imports := Sample.imports)
        (dt_add (Sample.at_tz Sample.d_2024_02_19) (days 3)).
Proof.
  apply (@next_check_in_TZ Sample.imports Sample.now Sample.tendering).
  - intros c d [<- | []] [H | H]; simpl in H; [|discriminate].
    injection H as <-. reflexivity.
  - reflexivity.
Defined.
